(** * Starlink-Status: the telemetry poller [StarlinkClient]

  A shallow embedding of [src/starlinkclient.cpp] and of the part of Qt
  and gRPC it drives: the blocking [Stub::Handle] call, the signals of
  [StarlinkClient], [qWarning], and the [QTimer] that the constructor
  connects to [fetchStatus].

  Time is counted in milliseconds as [N].  A member function that talks
  to the device is a computation in the monad [M]: it threads the remote
  device and the wall clock, and writes its signals and warnings, in
  program order, to an output list. *)

From Stdlib Require Import NArith ZArith List String Ascii Bool Lia Sorted.
From Stdlib Require Import Floats.SpecFloat.
Import ListNotations.

Local Open Scope string_scope.
Local Open Scope list_scope.
Local Open Scope N_scope.

(** ** C++ scalar types *)

(** [float] is IEEE-754 binary32 and [double] binary64; both are held as
  Stdlib's [spec_float], with the format's precision and exponent bound
  given where a literal is rounded. *)
Definition float : Type := spec_float.
Definition double : Type := spec_float.

(** The literal [m.0f] for a non-negative integer [m], rounded to binary32
  (24 bits of precision, [emax = 128]). *)
Definition float_literal (m : Z) : float := binary_normalize 24 128 m 0 false.

(** Whether a float holds exactly the integer [n >= 0]: its value is
  [m * 2^e]. *)
Definition float_is_integer (x : float) (n : Z) : bool :=
  match x with
  | S754_finite false m e => (Z.pos m =? n * 2 ^ (- e))%Z && (e <=? 0)%Z
  | S754_zero _ => (n =? 0)%Z
  | _ => false
  end.

(** [std::string] and [QString] both hold text; [c_str()] yields the bytes
  up to the first NUL. *)
Definition std_string : Type := string.
Definition QString : Type := string.

(** [QString::fromStdString]: the text of a UTF-8 [std::string]. *)
Definition fromStdString (s : std_string) : QString := s.

Fixpoint c_str (s : std_string) : string :=
  match s with
  | EmptyString => EmptyString
  | String c rest => if Ascii.eqb c Ascii.zero then EmptyString else String c (c_str rest)
  end.

(** ** gRPC *)

Module grpc.

(** [grpc::Status]: a status code ([0] is [OK]) and an error message. *)
Record Status : Type := { error_code : Z; error_message : std_string }.

Definition ok (s : Status) : bool := (error_code s =? 0)%Z.

End grpc.

(** ** The device API messages *)

Module Device.

(** Modelled from the spec: the generated header
    [spacex/api/device/device.pb.h] is missing; the messages carry what
    [fetchStatus] reads through their accessors (spec 3 and 4.1: status
    with an optional device-info sub-record, location with an optional
    lat/lon/alt sub-record, history with a throughput record).  An unset
    sub-message reads as its default instance, as protobuf accessors do. *)
Record DeviceInfo : Type := { id : std_string; hardware_version : std_string }.

Definition DeviceInfo_default : DeviceInfo := {| id := EmptyString; hardware_version := EmptyString |}.

(** Modelled from the spec: the device-info sub-record of a status response
  (generated message [GetDeviceInfoResponse], missing), itself with an
  optional [DeviceInfo]. *)
Record GetDeviceInfoResponse : Type := { device_info_ : option DeviceInfo }.

Definition device_info (r : GetDeviceInfoResponse) : DeviceInfo :=
  match device_info_ r with Some i => i | None => DeviceInfo_default end.

Definition GetDeviceInfoResponse_default : GetDeviceInfoResponse :=
  {| device_info_ := None |}.

(** Modelled from the spec: the resolved position, latitude, longitude and
  altitude as [double] (generated message [LLAPosition], missing). *)
Record LLAPosition : Type := { lat : double; lon : double; alt : double }.

Definition LLAPosition_default : LLAPosition :=
  {| lat := S754_zero false; lon := S754_zero false; alt := S754_zero false |}.

(** Modelled from the spec: the location sub-record, with its optional
  resolved position (generated message [GetLocationResponse], missing). *)
Record GetLocationResponse : Type := { lla_ : option LLAPosition }.

Definition has_lla (r : GetLocationResponse) : bool :=
  match lla_ r with Some _ => true | None => false end.

Definition lla (r : GetLocationResponse) : LLAPosition :=
  match lla_ r with Some p => p | None => LLAPosition_default end.

Definition GetLocationResponse_default : GetLocationResponse := {| lla_ := None |}.

(** Modelled from the spec: the history payload, "an implementation-defined
  throughput record" (spec 4.1), held as download, upload and latency
  samples; the generated message is missing and [fetchStatus] never
  reads it. *)
Record DishGetHistoryResponse : Type := { samples : list (float * float * float) }.

(** Modelled from the spec: the generated message [Response] is missing;
  it holds one optional sub-record per kind of answer.  Nothing here
  forbids several at once, so the oneof of the real message is a special
  case. *)
Record Response : Type := {
  get_device_info_ : option GetDeviceInfoResponse;
  get_location_ : option GetLocationResponse;
  dish_get_history_ : option DishGetHistoryResponse
}.

Definition has_get_device_info (r : Response) : bool :=
  match get_device_info_ r with Some _ => true | None => false end.

Definition get_device_info (r : Response) : GetDeviceInfoResponse :=
  match get_device_info_ r with Some x => x | None => GetDeviceInfoResponse_default end.

Definition has_get_location (r : Response) : bool :=
  match get_location_ r with Some _ => true | None => false end.

Definition get_location (r : Response) : GetLocationResponse :=
  match get_location_ r with Some x => x | None => GetLocationResponse_default end.

(** A freshly constructed [Response], before [Handle] fills it. *)
Definition Response_new : Response :=
  {| get_device_info_ := None; get_location_ := None; dish_get_history_ := None |}.

(** Modelled from the spec: the generated message [Request] is missing;
  its [request] oneof, as far as [fetchStatus] sets it through the three
  [mutable_get_...] accessors. *)
Inductive RequestCase : Type :=
| REQUEST_NOT_SET
| kGetStatus
| kGetLocation
| kGetHistory.

Record Request : Type := { request_case : RequestCase }.

Definition Request_new : Request := {| request_case := REQUEST_NOT_SET |}.
Definition mutable_get_status (_ : Request) : Request := {| request_case := kGetStatus |}.
Definition mutable_get_location (_ : Request) : Request := {| request_case := kGetLocation |}.
Definition mutable_get_history (_ : Request) : Request := {| request_case := kGetHistory |}.

End Device.

(** ** The stub *)

(** What one blocking [stub_->Handle(&context, request, &response)] yields:
  the returned status, the filled response, and the time the call took. *)
Record Reply : Type := {
  status : grpc.Status;
  response : Device.Response;
  latency : N
}.

(** [Device::Stub]: the remote device answers a request made at a given
  time, and moves to a new state of its own.  Nothing is assumed about
  the answers: they may depend on the request, on the time, and on
  everything the device has been asked before. *)
Class Stub (Dev : Type) : Type :=
  Handle : Dev -> N -> Device.Request -> Reply * Dev.

(** ** Signals and diagnostics *)

(** The four signals of [StarlinkClient] (starlinkclient.h). *)
Inductive Signal : Type :=
| statusChanged (connected : bool)
| speedUpdated (downloadMbps uploadMbps latencyMs : float)
| locationUpdated (lat lon alt : double)
| satelliteInfoUpdated (id hardwareVersion : QString).

(** What a member function lets the outside see: an emitted signal, or a
  [qWarning()] line given as the items streamed into it. *)
Inductive Output : Type :=
| Emit (s : Signal)
| Warning (items : list string).

(** ** The monad of member functions *)

Section Monad.
Context {Dev : Type}.

Record Env : Type := { device : Dev; clock : N }.

Definition M (A : Type) : Type := Env -> A * Env * list Output.

Definition ret {A} (a : A) : M A := fun e => (a, e, []).

Definition bind {A B} (m : M A) (k : A -> M B) : M B :=
  fun e =>
    let '(a, e1, o1) := m e in
    let '(b, e2, o2) := k a e1 in
    (b, e2, o1 ++ o2).

(** The slots connected to the signal run inside [emit]; the time they
  take is not counted, nor is the time of [qWarning]. *)
Definition emit (s : Signal) : M unit := fun e => (tt, e, [Emit s]).

Definition qWarning (items : list string) : M unit := fun e => (tt, e, [Warning items]).

Definition currentTime : M N := fun e => (clock e, e, []).

(** The call blocks the calling thread for the reply's latency. *)
Definition stub_Handle `{Stub Dev} (request : Device.Request) : M (grpc.Status * Device.Response) :=
  fun e =>
    let '(r, d) := Handle (device e) (clock e) request in
    ((status r, response r), {| device := d; clock := clock e + latency r |}, []).

End Monad.

Arguments Env : clear implicits.
Arguments M : clear implicits.

Declare Scope member_scope.
Delimit Scope member_scope with member.
Notation "x <- m ;; k" := (bind m (fun x => k))
  (at level 61, m at next level, right associativity) : member_scope.
Notation "' pat <- m ;; k" := (bind m (fun x => let pat := x in k))
  (at level 61, pat pattern, m at next level, right associativity) : member_scope.
Notation "m ;; k" := (bind m (fun _ => k))
  (at level 61, right associativity) : member_scope.

(** ** StarlinkClient::fetchStatus *)

Section Client.
Context {Dev : Type} `{Stub Dev}.
Local Open Scope member_scope.

Definition fetchStatus : M Dev unit :=
  (* 1. Get Status *)
  (let request := Device.mutable_get_status Device.Request_new in
   '(status, response) <- stub_Handle request ;;
   if grpc.ok status then
     emit (statusChanged true) ;;
     (* Parse device info if available *)
     if Device.has_get_device_info response then
       let info := Device.device_info (Device.get_device_info response) in
       emit (satelliteInfoUpdated (fromStdString (Device.id info))
                                  (fromStdString (Device.hardware_version info)))
     else ret tt
   else
     emit (statusChanged false) ;;
     qWarning ["gRPC Status Failed:"; c_str (grpc.error_message status)]) ;;
  (* 2. Get Location *)
  (let request := Device.mutable_get_location Device.Request_new in
   '(status, response) <- stub_Handle request ;;
   if grpc.ok status && Device.has_get_location response then
     let loc := Device.get_location response in
     if Device.has_lla loc then
       emit (locationUpdated (Device.lat (Device.lla loc))
                             (Device.lon (Device.lla loc))
                             (Device.alt (Device.lla loc)))
     else ret tt
   else ret tt) ;;
  (* 3. Get History *)
  (let request := Device.mutable_get_history Device.Request_new in
   '(status, response) <- stub_Handle request ;;
   if grpc.ok status then
     (* Placeholder: 100 Mbps down, 20 Mbps up, 30ms latency *)
     emit (speedUpdated (float_literal 100) (float_literal 20) (float_literal 30))
   else ret tt).

End Client.

(** ** QTimer *)

(** A repeating [QTimer]: whether it is armed, its period, and the time at
  which its next [timeout()] is due.  A timer is a passive object: its
  [timeout()] is delivered by the event loop of the thread that owns it,
  between two handlers, never while one is running. *)
Record QTimer : Type := { isActive : bool; interval : N; expiry : N }.

Definition QTimer_new : QTimer := {| isActive := false; interval := 0; expiry := 0 |}.

(** [QTimer::start(int msec)]: starts or restarts the timer with period
  [msec]; a timer that is already running is stopped and restarted, so its
  countdown begins again at the time of the call. *)
Definition QTimer_start (msec now : N) (t : QTimer) : QTimer :=
  {| isActive := true; interval := msec; expiry := now + msec |}.

(** [QTimer::stop()]; on a timer that is not running it changes nothing. *)
Definition QTimer_stop (t : QTimer) : QTimer :=
  {| isActive := false; interval := interval t; expiry := expiry t |}.

(** Whether [timeout()] is due.  The instant is the nominal one: a timer
  of the default coarse type may be delivered somewhat before it. *)
Definition QTimer_due (now : N) (t : QTimer) : bool :=
  isActive t && (expiry t <=? now).

(** The next expiry of a repeating timer, fixed when its [timeout()] is
  dispatched: one period after the expiry that fired, or one period from
  now when that is already past. *)
Definition QTimer_rearm (now : N) (t : QTimer) : QTimer :=
  let e := expiry t + interval t in
  {| isActive := true; interval := interval t;
   expiry := if e <? now then now + interval t else e |}.

(** ** StarlinkClient *)

(** The members of the object.  [stub_] is the [Stub] instance in scope,
  bound to the device held in [Env]. *)
Record StarlinkClient : Type := { pollTimer_ : QTimer; target_ : QString }.

Definition default_target : QString := "192.168.100.1:9200".

(** The constructor: a new, unarmed timer, whose [timeout()] is connected
  to [fetchStatus] (see [step]). *)
Definition StarlinkClient_new (target : QString) : StarlinkClient :=
  {| pollTimer_ := QTimer_new; target_ := target |}.

Definition set_pollTimer (t : QTimer) (this : StarlinkClient) : StarlinkClient :=
  {| pollTimer_ := t; target_ := target_ this |}.

(** The two states of the poller (spec 4.2). *)
Inductive PollerState : Type := Idle | Running.

Definition poller_state (this : StarlinkClient) : PollerState :=
  if isActive (pollTimer_ this) then Running else Idle.

Section Monitoring.
Context {Dev : Type} `{Stub Dev}.
Local Open Scope member_scope.

Definition startMonitoring (this : StarlinkClient) : M Dev StarlinkClient :=
  now <- currentTime ;;
  let this := set_pollTimer (QTimer_start 5000 now (pollTimer_ this)) this in (* Poll every 5 seconds *)
  fetchStatus ;; (* Initial fetch *)
  ret this.

Definition stopMonitoring (this : StarlinkClient) : M Dev StarlinkClient :=
  ret (set_pollTimer (QTimer_stop (pollTimer_ this)) this).

(** [~StarlinkClient()]. *)
Definition StarlinkClient_destroy (this : StarlinkClient) : M Dev StarlinkClient :=
  stopMonitoring this.

End Monitoring.

(** ** The application thread *)

(** One execution of [fetchStatus], as the thread's history keeps it: when
  it began, when it returned, and what it let the outside see. *)
Record Cycle : Type := { began : N; ended : N; outputs : list Output }.

(** The GUI thread: the poller, the device and the clock, everything the
  observers have seen so far (oldest first), and the cycles run so far
  (oldest first). *)
Record App (Dev : Type) : Type := {
  poller : StarlinkClient;
  env : Env Dev;
  observed : list Output;
  cycles : list Cycle
}.

Arguments poller {Dev} _.
Arguments env {Dev} _.
Arguments observed {Dev} _.
Arguments cycles {Dev} _.

(** What the thread does next, once the handler before has returned: other
  work or sleep for [d] ms, delivery of the timer's [timeout()] when it is
  due, or a call of [startMonitoring] or [stopMonitoring] by the owner of
  the poller. *)
Inductive Action : Type :=
| Elapse (d : N)
| Tick
| CallStart
| CallStop.

Section EventLoop.
Context {Dev : Type} `{Stub Dev}.

Definition boot (target : QString) (e : Env Dev) : App Dev :=
  {| poller := StarlinkClient_new target; env := e; observed := []; cycles := [] |}.

Definition step (a : Action) (s : App Dev) : App Dev :=
  match a with
  | Elapse d =>
    {| poller := poller s;
       env := {| device := device (env s); clock := clock (env s) + d |};
       observed := observed s; cycles := cycles s |}
  | Tick =>
    if QTimer_due (clock (env s)) (pollTimer_ (poller s)) then
      let this := set_pollTimer (QTimer_rearm (clock (env s)) (pollTimer_ (poller s))) (poller s) in
      let '(_, e, o) := fetchStatus (env s) in
      {| poller := this; env := e;
         observed := observed s ++ o;
         cycles := cycles s ++ [{| began := clock (env s); ended := clock e; outputs := o |}] |}
    else s
  | CallStart =>
    let '(this, e, o) := startMonitoring (poller s) (env s) in
    {| poller := this; env := e;
       observed := observed s ++ o;
       cycles := cycles s ++ [{| began := clock (env s); ended := clock e; outputs := o |}] |}
  | CallStop =>
    let '(this, e, o) := stopMonitoring (poller s) (env s) in
    {| poller := this; env := e; observed := observed s ++ o; cycles := cycles s |}
  end.

Definition run (acts : list Action) (s : App Dev) : App Dev :=
  fold_left (fun s a => step a s) acts s.

(** Destruction of the poller inside the running application. *)
Definition destroy (s : App Dev) : App Dev :=
  let '(this, e, o) := StarlinkClient_destroy (poller s) (env s) in
  {| poller := this; env := e; observed := observed s ++ o; cycles := cycles s |}.

End EventLoop.

(** After destruction no member function can be called any more: the
  thread only lets time pass and delivers what timers are due. *)
Definition loop_only (a : Action) : bool :=
  match a with
  | Elapse _ | Tick => true
  | CallStart | CallStop => false
  end.

(** ** Reading a cycle *)

Definition signals (o : list Output) : list Signal :=
  flat_map (fun x => match x with Emit s => [s] | Warning _ => [] end) o.

Definition warnings (o : list Output) : list (list string) :=
  flat_map (fun x => match x with Emit _ => [] | Warning w => [w] end) o.

(** The four event kinds of the spec, numbered in the order the spec gives
  them: ConnectionState, DeviceIdentity, GeoPosition, ThroughputSample. *)
Inductive Kind : Type := ConnectionState | DeviceIdentity | GeoPosition | ThroughputSample.

Definition kind (s : Signal) : Kind :=
  match s with
  | statusChanged _ => ConnectionState
  | satelliteInfoUpdated _ _ => DeviceIdentity
  | locationUpdated _ _ _ => GeoPosition
  | speedUpdated _ _ _ => ThroughputSample
  end.

Definition rank (k : Kind) : nat :=
  match k with
  | ConnectionState => 0
  | DeviceIdentity => 1
  | GeoPosition => 2
  | ThroughputSample => 3
  end.

Definition Kind_eqb (a b : Kind) : bool := Nat.eqb (rank a) (rank b).

Definition of_kind (k : Kind) (l : list Signal) : list Signal :=
  filter (fun s => Kind_eqb (kind s) k) l.

Section Cycle.
Context {Dev : Type} `{Stub Dev}.

(** The outputs and the signals of the cycle run from [e]. *)
Definition cycle_outputs (e : Env Dev) : list Output := snd (fetchStatus e).

Definition cycle_signals (e : Env Dev) : list Signal := signals (cycle_outputs e).

(** The device's answers to the three calls of the cycle run from [e], in
  the order [fetchStatus] makes them: each call reaches the device as the
  call before left it, at the time the call before returned. *)
Definition status_call (e : Env Dev) : Reply * Env Dev :=
  let '(r, d) := Handle (device e) (clock e) (Device.mutable_get_status Device.Request_new) in
  (r, {| device := d; clock := clock e + latency r |}).

Definition location_call (e : Env Dev) : Reply * Env Dev :=
  let e1 := snd (status_call e) in
  let '(r, d) := Handle (device e1) (clock e1) (Device.mutable_get_location Device.Request_new) in
  (r, {| device := d; clock := clock e1 + latency r |}).

Definition history_call (e : Env Dev) : Reply * Env Dev :=
  let e2 := snd (location_call e) in
  let '(r, d) := Handle (device e2) (clock e2) (Device.mutable_get_history Device.Request_new) in
  (r, {| device := d; clock := clock e2 + latency r |}).

Definition status_ok (e : Env Dev) : bool := grpc.ok (status (fst (status_call e))).
Definition location_ok (e : Env Dev) : bool := grpc.ok (status (fst (location_call e))).
Definition history_ok (e : Env Dev) : bool := grpc.ok (status (fst (history_call e))).

(** The status response carries a device-info sub-record. *)
Definition carries_device_info (e : Env Dev) : bool :=
  Device.has_get_device_info (response (fst (status_call e))).

(** The location response carries a resolved position. *)
Definition carries_position (e : Env Dev) : bool :=
  let r := response (fst (location_call e)) in
  Device.has_get_location r && Device.has_lla (Device.get_location r).

End Cycle.

(** ** The spec's reading of [start()] *)

Section StartAsSpecified.
Context {Dev : Type} `{Stub Dev}.
Local Open Scope member_scope.

(** [start()] as spec 4.2 words it, to be compared with [startMonitoring]:
  one cycle is performed first and the timer is armed after it, and on a
  poller that is already Running the timer is left as it is. *)
Definition start_as_specified (this : StarlinkClient) : M Dev StarlinkClient :=
  fetchStatus ;;
  match poller_state this with
  | Idle =>
    now <- currentTime ;;
    ret (set_pollTimer (QTimer_start 5000 now (pollTimer_ this)) this)
  | Running => ret this
  end.

End StartAsSpecified.

(** ** Devices to run the poller against *)

Definition OK : grpc.Status := {| grpc.error_code := 0; grpc.error_message := EmptyString |}.

Definition UNAVAILABLE : grpc.Status :=
  {| grpc.error_code := 14; grpc.error_message := "failed to connect to all addresses" |}.

(** A scripted device answers each call with the next reply of its script,
  whatever the request, and is unreachable once the script is used up. *)
#[export] Instance Scripted : Stub (list Reply) :=
  fun script _ _ =>
  match script with
  | r :: rest => (r, rest)
  | [] => ({| status := UNAVAILABLE; response := Device.Response_new; latency := 0 |}, [])
  end.

Definition double_literal (m e : Z) : double := binary_normalize 53 1024 m e false.

Definition SAT123 : Device.Response :=
  {| Device.get_device_info_ :=
     Some {| Device.device_info_ :=
               Some {| Device.id := "SAT123"; Device.hardware_version := "rev2" |} |};
   Device.get_location_ := None;
   Device.dish_get_history_ := None |}.

Definition here : Device.LLAPosition :=
  {| Device.lat := double_literal 75 (-1);
   Device.lon := SFopp (double_literal 489 (-2));
   Device.alt := double_literal 15 0 |}.

Definition located : Device.Response :=
  {| Device.get_device_info_ := None;
   Device.get_location_ := Some {| Device.lla_ := Some here |};
   Device.dish_get_history_ := None |}.

Definition unlocated : Device.Response :=
  {| Device.get_device_info_ := None;
   Device.get_location_ := Some {| Device.lla_ := None |};
   Device.dish_get_history_ := None |}.

Definition history_of (l : list (float * float * float)) : Device.Response :=
  {| Device.get_device_info_ := None;
   Device.get_location_ := None;
   Device.dish_get_history_ := Some {| Device.samples := l |} |}.

Definition reply (s : grpc.Status) (r : Device.Response) (ms : N) : Reply :=
  {| status := s; response := r; latency := ms |}.

Definition failed (ms : N) : Reply := reply UNAVAILABLE Device.Response_new ms.

(** Spec 8, first scenario: all three calls succeed. *)
Definition all_good : Env (list Reply) :=
  {| device := [reply OK SAT123 40; reply OK located 35; reply OK (history_of []) 60];
   clock := 0 |}.

(** Spec 8, second scenario: the status call fails, the other two succeed. *)
Definition status_down : Env (list Reply) :=
  {| device := [failed 40; reply OK located 35; reply OK (history_of []) 60];
   clock := 0 |}.

(** Only the status call succeeds. *)
Definition only_status : Env (list Reply) :=
  {| device := [reply OK SAT123 40; failed 35; failed 60]; clock := 0 |}.

(** The location call succeeds, but the dish has no position to give. *)
Definition no_fix : Env (list Reply) :=
  {| device := [reply OK SAT123 40; reply OK unlocated 35; reply OK (history_of []) 60];
     clock := 0 |}.

(** A device slower than the polling period: every call takes 7 s. *)
Definition sluggish : Env (list Reply) :=
  {| device := repeat (reply OK SAT123 7000) 12; clock := 0 |}.

Definition idle_client : StarlinkClient := StarlinkClient_new default_target.

(** A poller that was started at time 0 and is asked to start again at 3 s. *)
Definition running_client : StarlinkClient :=
  set_pollTimer (QTimer_start 5000 0 QTimer_new) idle_client.

Definition at_3s : Env (list Reply) :=
  {| device := [reply OK SAT123 40; reply OK located 35; reply OK (history_of []) 60];
   clock := 3000 |}.

(** A history payload with one sample that is not the placeholder. *)
Definition busy : Env (list Reply) :=
  {| device := [reply OK SAT123 40; reply OK located 35;
              reply OK (history_of [(float_literal 250, float_literal 10, float_literal 45)]) 60];
   clock := 0 |}.

(** The application a moment after its poller was started on the sluggish
  device, and what its thread does in the 20 s that follow. *)
Definition started : App (list Reply) := run [CallStart] (boot default_target sluggish).

Definition twenty_seconds : list Action :=
  [Elapse 4000; Tick; Elapse 5000; Tick; Elapse 5000; Tick].

(** ** Relations between applications *)

(** The application [s] with its poller replaced by one that was only
  constructed, for the same target, and never started. *)
Definition never_started {Dev : Type} (s : App Dev) : App Dev :=
  {| poller := StarlinkClient_new (target_ (poller s));
   env := env s; observed := observed s; cycles := cycles s |}.

(** ** A stub that keeps what it is asked *)

(** A stub in front of another one: it hands every request on unchanged,
  returns the reply unchanged, and appends the request to a log. *)
Definition Recording {Dev : Type} `{Stub Dev} : Stub (Dev * list Device.Request) :=
  fun d now request =>
    let '(r, d') := Handle (fst d) now request in
    (r, (d', snd d ++ [request])).

(** The environment [e] seen through the recording stub, with the log [log]. *)
Definition recorded {Dev : Type} (log : list Device.Request) (e : Env Dev) :
    Env (Dev * list Device.Request) :=
  {| device := (device e, log); clock := clock e |}.

(** ** Kinds of actions *)

Definition never_starts (a : Action) : bool :=
  match a with
  | CallStart => false
  | Elapse _ | Tick | CallStop => true
  end.

Definition never_stops (a : Action) : bool :=
  match a with
  | CallStop => false
  | Elapse _ | Tick | CallStart => true
  end.

(** The observers have been told the connection state once per cycle, and
  the log holds at most one warning per cycle. *)
Definition told_once_per_cycle {Dev : Type} (s : App Dev) : Prop :=
  List.length (of_kind ConnectionState (signals (observed s))) = List.length (cycles s)
  /\ (List.length (warnings (observed s)) <= List.length (cycles s))%nat.

(** ** Qt widgets of the main window *)

(** [QString::arg]: the two overloads mainwindow.cpp calls, taken as they
  come.  [arg t a] is [t.arg(a)] for a [QString] [a]; [arg_double t a w f p]
  is [t.arg(a, w, f, p)] for a number, to which a [float] is promoted
  without loss. *)
Class QStringArg : Type := {
  arg : QString -> QString -> QString;
  arg_double : QString -> double -> Z -> ascii -> Z -> QString
}.

(** A [QIcon]: the null icon of a default-constructed member, or the icon
  read from a resource. *)
Inductive QIcon : Type :=
| QIcon_null
| QIcon_file (fileName : string).

(** The slot a menu action is connected to. *)
Inductive Slot : Type :=
| MainWindow_showNormal
| QCoreApplication_quit.

Record QAction : Type := { text : string; triggered : Slot }.

Module QSystemTrayIcon.

Inductive ActivationReason : Type :=
| Unknown
| Context
| DoubleClick
| Trigger
| MiddleClick.

Record t : Type := {
  icon : QIcon;
  toolTip : QString;
  contextMenu : list QAction;
  isVisible : bool
}.

(** [new QSystemTrayIcon(this)]. *)
Definition new : t :=
  {| icon := QIcon_null; toolTip := EmptyString; contextMenu := []; isVisible := false |}.

Definition setIcon (i : QIcon) (x : t) : t :=
  {| icon := i; toolTip := toolTip x; contextMenu := contextMenu x; isVisible := isVisible x |}.

Definition setToolTip (s : QString) (x : t) : t :=
  {| icon := icon x; toolTip := s; contextMenu := contextMenu x; isVisible := isVisible x |}.

Definition setContextMenu (m : list QAction) (x : t) : t :=
  {| icon := icon x; toolTip := toolTip x; contextMenu := m; isVisible := isVisible x |}.

Definition show (x : t) : t :=
  {| icon := icon x; toolTip := toolTip x; contextMenu := contextMenu x; isVisible := true |}.

End QSystemTrayIcon.

(** [QCloseEvent]: accepted when it is made, until a handler ignores it. *)
Record QCloseEvent : Type := { isAccepted : bool }.

Definition QCloseEvent_new : QCloseEvent := {| isAccepted := true |}.
Definition ignore (_ : QCloseEvent) : QCloseEvent := {| isAccepted := false |}.

(** ** MainWindow *)

(** The members of [MainWindow] (mainwindow.h), each label by its text,
  and what the window keeps as a [QMainWindow]: title, size, whether it is
  shown and whether it was asked to be the active window.  [trayIconMenu_]
  is the context menu held by [trayIcon_]. *)
Record MainWindow : Type := {
  client_ : StarlinkClient;
  trayIcon_ : QSystemTrayIcon.t;
  statusLabel_ : QString;
  speedLabel_ : QString;
  locationLabel_ : QString;
  satelliteLabel_ : QString;
  connectedIcon_ : QIcon;
  disconnectedIcon_ : QIcon;
  windowTitle : QString;
  size : N * N;
  isVisible : bool;
  isActiveWindow : bool
}.

Definition set_client_ (x : StarlinkClient) (w : MainWindow) : MainWindow :=
  {| client_ := x; trayIcon_ := trayIcon_ w; statusLabel_ := statusLabel_ w;
     speedLabel_ := speedLabel_ w; locationLabel_ := locationLabel_ w;
     satelliteLabel_ := satelliteLabel_ w; connectedIcon_ := connectedIcon_ w;
     disconnectedIcon_ := disconnectedIcon_ w; windowTitle := windowTitle w;
     size := size w; isVisible := isVisible w; isActiveWindow := isActiveWindow w |}.

Definition set_trayIcon_ (x : QSystemTrayIcon.t) (w : MainWindow) : MainWindow :=
  {| client_ := client_ w; trayIcon_ := x; statusLabel_ := statusLabel_ w;
     speedLabel_ := speedLabel_ w; locationLabel_ := locationLabel_ w;
     satelliteLabel_ := satelliteLabel_ w; connectedIcon_ := connectedIcon_ w;
     disconnectedIcon_ := disconnectedIcon_ w; windowTitle := windowTitle w;
     size := size w; isVisible := isVisible w; isActiveWindow := isActiveWindow w |}.

Definition set_statusLabel_ (x : QString) (w : MainWindow) : MainWindow :=
  {| client_ := client_ w; trayIcon_ := trayIcon_ w; statusLabel_ := x;
     speedLabel_ := speedLabel_ w; locationLabel_ := locationLabel_ w;
     satelliteLabel_ := satelliteLabel_ w; connectedIcon_ := connectedIcon_ w;
     disconnectedIcon_ := disconnectedIcon_ w; windowTitle := windowTitle w;
     size := size w; isVisible := isVisible w; isActiveWindow := isActiveWindow w |}.

Definition set_speedLabel_ (x : QString) (w : MainWindow) : MainWindow :=
  {| client_ := client_ w; trayIcon_ := trayIcon_ w; statusLabel_ := statusLabel_ w;
     speedLabel_ := x; locationLabel_ := locationLabel_ w;
     satelliteLabel_ := satelliteLabel_ w; connectedIcon_ := connectedIcon_ w;
     disconnectedIcon_ := disconnectedIcon_ w; windowTitle := windowTitle w;
     size := size w; isVisible := isVisible w; isActiveWindow := isActiveWindow w |}.

Definition set_locationLabel_ (x : QString) (w : MainWindow) : MainWindow :=
  {| client_ := client_ w; trayIcon_ := trayIcon_ w; statusLabel_ := statusLabel_ w;
     speedLabel_ := speedLabel_ w; locationLabel_ := x;
     satelliteLabel_ := satelliteLabel_ w; connectedIcon_ := connectedIcon_ w;
     disconnectedIcon_ := disconnectedIcon_ w; windowTitle := windowTitle w;
     size := size w; isVisible := isVisible w; isActiveWindow := isActiveWindow w |}.

Definition set_satelliteLabel_ (x : QString) (w : MainWindow) : MainWindow :=
  {| client_ := client_ w; trayIcon_ := trayIcon_ w; statusLabel_ := statusLabel_ w;
     speedLabel_ := speedLabel_ w; locationLabel_ := locationLabel_ w;
     satelliteLabel_ := x; connectedIcon_ := connectedIcon_ w;
     disconnectedIcon_ := disconnectedIcon_ w; windowTitle := windowTitle w;
     size := size w; isVisible := isVisible w; isActiveWindow := isActiveWindow w |}.

Definition set_isVisible (x : bool) (w : MainWindow) : MainWindow :=
  {| client_ := client_ w; trayIcon_ := trayIcon_ w; statusLabel_ := statusLabel_ w;
     speedLabel_ := speedLabel_ w; locationLabel_ := locationLabel_ w;
     satelliteLabel_ := satelliteLabel_ w; connectedIcon_ := connectedIcon_ w;
     disconnectedIcon_ := disconnectedIcon_ w; windowTitle := windowTitle w;
     size := size w; isVisible := x; isActiveWindow := isActiveWindow w |}.

Definition set_isActiveWindow (x : bool) (w : MainWindow) : MainWindow :=
  {| client_ := client_ w; trayIcon_ := trayIcon_ w; statusLabel_ := statusLabel_ w;
     speedLabel_ := speedLabel_ w; locationLabel_ := locationLabel_ w;
     satelliteLabel_ := satelliteLabel_ w; connectedIcon_ := connectedIcon_ w;
     disconnectedIcon_ := disconnectedIcon_ w; windowTitle := windowTitle w;
     size := size w; isVisible := isVisible w; isActiveWindow := x |}.

(** [hide()], [showNormal()] and [activateWindow()] of the window. *)
Definition hide (w : MainWindow) : MainWindow :=
  set_isActiveWindow false (set_isVisible false w).

Definition showNormal (w : MainWindow) : MainWindow := set_isVisible true w.

Definition activateWindow (w : MainWindow) : MainWindow := set_isActiveWindow true w.

(** The window before the body of its constructor runs: the poller is
  made, the icons are null, nothing is shown. *)
Definition MainWindow_members (client : StarlinkClient) : MainWindow :=
  {| client_ := client; trayIcon_ := QSystemTrayIcon.new;
     statusLabel_ := EmptyString; speedLabel_ := EmptyString;
     locationLabel_ := EmptyString; satelliteLabel_ := EmptyString;
     connectedIcon_ := QIcon_null; disconnectedIcon_ := QIcon_null;
     windowTitle := EmptyString; size := (0, 0);
     isVisible := false; isActiveWindow := false |}.

Definition createUi (w : MainWindow) : MainWindow :=
  {| client_ := client_ w; trayIcon_ := trayIcon_ w;
     statusLabel_ := "Status: Connecting...";
     speedLabel_ := "Speed: --";
     locationLabel_ := "Location: --";
     satelliteLabel_ := "Satellite: --";
     connectedIcon_ := connectedIcon_ w; disconnectedIcon_ := disconnectedIcon_ w;
     windowTitle := "Starlink Monitor"; size := (300, 200);
     isVisible := isVisible w; isActiveWindow := isActiveWindow w |}.

Definition createTrayIcon (w : MainWindow) : MainWindow :=
  let trayIconMenu_ :=
    [{| text := "Show"; triggered := MainWindow_showNormal |};
     {| text := "Quit"; triggered := QCoreApplication_quit |}] in
  let trayIcon := QSystemTrayIcon.new in
  let trayIcon := QSystemTrayIcon.setContextMenu trayIconMenu_ trayIcon in
  let trayIcon := QSystemTrayIcon.show trayIcon in
  set_trayIcon_ trayIcon w.

Definition closeEvent (event : QCloseEvent) (w : MainWindow) : MainWindow * QCloseEvent :=
  if QSystemTrayIcon.isVisible (trayIcon_ w) then (hide w, ignore event)
  else (w, event).

Definition onTrayIconActivated (reason : QSystemTrayIcon.ActivationReason) (w : MainWindow) :
    MainWindow :=
  match reason with
  | QSystemTrayIcon.Trigger | QSystemTrayIcon.DoubleClick =>
      if isVisible w then hide w
      else activateWindow (showNormal w)
  | _ => w
  end.

Definition updateStatus (connected : bool) (w : MainWindow) : MainWindow :=
  if connected then
    let w := set_statusLabel_ "Status: Connected" w in
    let w := set_trayIcon_ (QSystemTrayIcon.setIcon (connectedIcon_ w) (trayIcon_ w)) w in
    set_trayIcon_ (QSystemTrayIcon.setToolTip "Starlink: Connected" (trayIcon_ w)) w
  else
    let w := set_statusLabel_ "Status: Disconnected" w in
    let w := set_trayIcon_ (QSystemTrayIcon.setIcon (disconnectedIcon_ w) (trayIcon_ w)) w in
    set_trayIcon_ (QSystemTrayIcon.setToolTip "Starlink: Disconnected" (trayIcon_ w)) w.

Section Slots.
Context `{QStringArg}.

Definition updateSpeed (downloadMbps uploadMbps latencyMs : float) (w : MainWindow) :
    MainWindow :=
  set_speedLabel_
    (arg_double
       (arg_double
          (arg_double "Down: %1 Mbps | Up: %2 Mbps | Ping: %3 ms" downloadMbps 0 "f" 1)
          uploadMbps 0 "f" 1)
       latencyMs 0 "f" 0) w.

Definition updateLocation (lat lon alt : double) (w : MainWindow) : MainWindow :=
  set_locationLabel_
    (arg_double
       (arg_double
          (arg_double "Lat: %1 | Lon: %2 | Alt: %3 m" lat 0 "f" 4)
          lon 0 "f" 4)
       alt 0 "f" 1) w.

Definition updateSatelliteInfo (id hardwareVersion : QString) (w : MainWindow) : MainWindow :=
  set_satelliteLabel_ (arg (arg "ID: %1 | HW: %2" id) hardwareVersion) w.

(** The four [connect] calls of the constructor: each signal of the poller
  calls its slot, at once and in the emitting thread. *)
Definition deliver (s : Signal) (w : MainWindow) : MainWindow :=
  match s with
  | statusChanged connected => updateStatus connected w
  | speedUpdated downloadMbps uploadMbps latencyMs =>
      updateSpeed downloadMbps uploadMbps latencyMs w
  | locationUpdated lat lon alt => updateLocation lat lon alt w
  | satelliteInfoUpdated id hardwareVersion => updateSatelliteInfo id hardwareVersion w
  end.

Definition deliver_all (l : list Signal) (w : MainWindow) : MainWindow :=
  fold_left (fun w s => deliver s w) l w.

(** What reaches the window from outside: an activation of the tray icon,
  a request to close the window, the "Show" entry of the tray menu, or a
  signal of the poller. *)
Inductive UiEvent : Type :=
| Activated (reason : QSystemTrayIcon.ActivationReason)
| CloseRequested
| ShowTriggered
| Signalled (s : Signal).

(** [QWidget::close()]: the close event goes to [closeEvent]; the widget is
  hidden when the event comes back accepted. *)
Definition close (w : MainWindow) : MainWindow :=
  let '(w, event) := closeEvent QCloseEvent_new w in
  if isAccepted event then hide w else w.

Definition handle (ev : UiEvent) (w : MainWindow) : MainWindow :=
  match ev with
  | Activated reason => onTrayIconActivated reason w
  | CloseRequested => close w
  | ShowTriggered => showNormal w
  | Signalled s => deliver s w
  end.

Definition handle_all (evs : list UiEvent) (w : MainWindow) : MainWindow :=
  fold_left (fun w ev => handle ev w) evs w.

(** [MainWindow::MainWindow].  The text the poller is constructed with is
  left open as [target]: nothing in the window depends on it.  The first
  cycle runs inside [startMonitoring], before the icons are loaded, and
  its signals reach the slots as they are emitted. *)
Definition MainWindow_new {Dev : Type} `{Stub Dev} (target : QString) : M Dev MainWindow :=
  fun e =>
    let w := MainWindow_members (StarlinkClient_new target) in
    let w := createUi w in
    let w := createTrayIcon w in
    let '(client, e, o) := startMonitoring (client_ w) e in
    let w := deliver_all (signals o) (set_client_ client w) in
    (* Load icons *)
    let w :=
      {| client_ := client_ w; trayIcon_ := trayIcon_ w;
         statusLabel_ := statusLabel_ w; speedLabel_ := speedLabel_ w;
         locationLabel_ := locationLabel_ w; satelliteLabel_ := satelliteLabel_ w;
         connectedIcon_ := QIcon_file ":/icons/connected.png";
         disconnectedIcon_ := QIcon_file ":/icons/disconnected.png";
         windowTitle := windowTitle w; size := size w;
         isVisible := isVisible w; isActiveWindow := isActiveWindow w |} in
    (* Initial state *)
    let w := updateStatus false w in
    (w, e, o).

End Slots.

(** What no handler of the window ever changes: whether the tray icon is
  shown, its menu, the two icons, the title, the size and the poller. *)
Definition fixtures_of (w0 w : MainWindow) : Prop :=
  QSystemTrayIcon.isVisible (trayIcon_ w) = QSystemTrayIcon.isVisible (trayIcon_ w0)
  /\ QSystemTrayIcon.contextMenu (trayIcon_ w) = QSystemTrayIcon.contextMenu (trayIcon_ w0)
  /\ connectedIcon_ w = connectedIcon_ w0
  /\ disconnectedIcon_ w = disconnectedIcon_ w0
  /\ windowTitle w = windowTitle w0
  /\ size w = size w0
  /\ client_ w = client_ w0.

(** The three places that show the connection state agree: the status
  label, the tool tip of the tray icon and the icon itself say Connected
  together or Disconnected together. *)
Definition status_consistent (w : MainWindow) : Prop :=
  (statusLabel_ w, QSystemTrayIcon.toolTip (trayIcon_ w), QSystemTrayIcon.icon (trayIcon_ w)) =
    ("Status: Connected", "Starlink: Connected", connectedIcon_ w)
  \/ (statusLabel_ w, QSystemTrayIcon.toolTip (trayIcon_ w), QSystemTrayIcon.icon (trayIcon_ w)) =
    ("Status: Disconnected", "Starlink: Disconnected", disconnectedIcon_ w).

(** A stand-in for [QString::arg] to run the window with: the argument is
  appended to the text in brackets, a number by its mantissa and exponent
  being left out. *)
#[export] Instance Bracketed : QStringArg :=
  {| arg := fun t a => (t ++ "[" ++ a ++ "]")%string;
     arg_double := fun t _ _ _ _ => (t ++ "[#]")%string |}.

(** A device that cannot be reached: every call fails. *)
Definition unreachable : Env (list Reply) := {| device := []; clock := 0 |}.

(** Everything but a start: time passes, the timer is looked at, stop is
  called. *)
Definition without_start : list Action :=
  [Elapse 6000; Tick; CallStop; Elapse 5000; Tick].

(** The window as the constructor has it when it starts the poller. *)
Definition blank_window : MainWindow :=
  createTrayIcon (createUi (MainWindow_members idle_client)).

(** ** Member functions as programs of the GUI thread *)

(** A mark the thread leaves in its trace: an execution of [fetchStatus]
  was entered or left at a time, or something was emitted or logged. *)
Inductive Mark : Type :=
| CycleBegan (t : N)
| CycleEnded (t : N)
| Sent (o : Output).

Module GuiThread.

(** A member function as the sequence of things it asks of the thread that
  runs it, so that what happens between two of them can be told.
  [Blocking] is the synchronous [stub_->Handle]: the thread waits in it for
  the reply.  [ProcessEvents] stands for whatever hands control back to
  the event loop before the function returns ([QCoreApplication::processEvents],
  a nested [QEventLoop::exec], a modal dialog): timers that are due are
  delivered inside it.  [Emitting] runs the connected slots, which in
  mainwindow.cpp set label texts and tray properties and return (see
  [deliver]).  [Entering] and [Leaving] are not code: they mark the entry
  and the return of [fetchStatus] in the trace. *)
Inductive Prog (A : Type) : Type :=
| Done (a : A)
| Blocking (request : Device.Request) (k : grpc.Status * Device.Response -> Prog A)
| Emitting (s : Signal) (k : Prog A)
| Logging (items : list string) (k : Prog A)
| TimerStart (msec : N) (k : Prog A)
| TimerStop (k : Prog A)
| ProcessEvents (k : Prog A)
| Entering (k : Prog A)
| Leaving (k : Prog A).

Arguments Done {A} a.
Arguments Blocking {A} request k.
Arguments Emitting {A} s k.
Arguments Logging {A} items k.
Arguments TimerStart {A} msec k.
Arguments TimerStop {A} k.
Arguments ProcessEvents {A} k.
Arguments Entering {A} k.
Arguments Leaving {A} k.

Fixpoint bind {A B : Type} (p : Prog A) (f : A -> Prog B) : Prog B :=
  match p with
  | Done a => f a
  | Blocking request k => Blocking request (fun r => bind (k r) f)
  | Emitting s k => Emitting s (bind k f)
  | Logging items k => Logging items (bind k f)
  | TimerStart msec k => TimerStart msec (bind k f)
  | TimerStop k => TimerStop (bind k f)
  | ProcessEvents k => ProcessEvents (bind k f)
  | Entering k => Entering (bind k f)
  | Leaving k => Leaving (bind k f)
  end.

Definition ret {A : Type} (a : A) : Prog A := Done a.
Definition stub_Handle (request : Device.Request) : Prog (grpc.Status * Device.Response) :=
  Blocking request (fun r => Done r).
Definition emit (s : Signal) : Prog unit := Emitting s (Done tt).
Definition qWarning (items : list string) : Prog unit := Logging items (Done tt).
Definition pollTimer_start (msec : N) : Prog unit := TimerStart msec (Done tt).
Definition pollTimer_stop : Prog unit := TimerStop (Done tt).
Definition enter_cycle : Prog unit := Entering (Done tt).
Definition leave_cycle : Prog unit := Leaving (Done tt).

Declare Scope thread_scope.
Delimit Scope thread_scope with thread.
Notation "x <- m ;; k" := (bind m (fun x => k))
  (at level 61, m at next level, right associativity) : thread_scope.
Notation "' pat <- m ;; k" := (bind m (fun x => let pat := x in k))
  (at level 61, pat pattern, m at next level, right associativity) : thread_scope.
Notation "m ;; k" := (bind m (fun _ => k))
  (at level 61, right associativity) : thread_scope.

Local Open Scope thread_scope.

(** [StarlinkClient::fetchStatus] again, statement by statement. *)
Definition fetchStatus : Prog unit :=
  enter_cycle ;;
  (* 1. Get Status *)
  (let request := Device.mutable_get_status Device.Request_new in
   '(status, response) <- stub_Handle request ;;
   if grpc.ok status then
     emit (statusChanged true) ;;
     (* Parse device info if available *)
     if Device.has_get_device_info response then
       let info := Device.device_info (Device.get_device_info response) in
       emit (satelliteInfoUpdated (fromStdString (Device.id info))
                                  (fromStdString (Device.hardware_version info)))
     else ret tt
   else
     emit (statusChanged false) ;;
     qWarning ["gRPC Status Failed:"; c_str (grpc.error_message status)]) ;;
  (* 2. Get Location *)
  (let request := Device.mutable_get_location Device.Request_new in
   '(status, response) <- stub_Handle request ;;
   if grpc.ok status && Device.has_get_location response then
     let loc := Device.get_location response in
     if Device.has_lla loc then
       emit (locationUpdated (Device.lat (Device.lla loc))
                             (Device.lon (Device.lla loc))
                             (Device.alt (Device.lla loc)))
     else ret tt
   else ret tt) ;;
  (* 3. Get History *)
  (let request := Device.mutable_get_history Device.Request_new in
   '(status, response) <- stub_Handle request ;;
   if grpc.ok status then
     (* Placeholder: 100 Mbps down, 20 Mbps up, 30ms latency *)
     emit (speedUpdated (float_literal 100) (float_literal 20) (float_literal 30))
   else ret tt) ;;
  leave_cycle.

Definition startMonitoring : Prog unit :=
  pollTimer_start 5000 ;; (* Poll every 5 seconds *)
  fetchStatus. (* Initial fetch *)

Definition stopMonitoring : Prog unit := pollTimer_stop.

(** The code a thread runs for a poller: the slot connected to the timer's
  [timeout()], and what the owner's calls of start and stop run. *)
Record Code : Type := { on_timeout : Prog unit; start : Prog unit; stop : Prog unit }.

(** The poller of the repository: the constructor connects [timeout()] to
  [fetchStatus]. *)
Definition StarlinkClient_code : Code :=
  {| on_timeout := fetchStatus; start := startMonitoring; stop := stopMonitoring |}.

(** For comparison only, not code of the repository: a [fetchStatus] that
  lets the event loop run while it is at work, as a handler does that
  waits for its reply in a nested event loop. *)
Definition fetchStatus_pumping : Prog unit :=
  enter_cycle ;;
  '(status, response) <- stub_Handle (Device.mutable_get_status Device.Request_new) ;;
  emit (statusChanged (grpc.ok status)) ;;
  ProcessEvents (Done tt) ;;
  leave_cycle.

Definition pumping_code : Code :=
  {| on_timeout := fetchStatus_pumping;
     start := pollTimer_start 5000 ;; fetchStatus_pumping;
     stop := stopMonitoring |}.

Section Run.
Context {Dev : Type} `{Stub Dev}.

(** The thread: the poller it owns, the device and the clock, and the
  trace so far, oldest mark first. *)
Record Thread : Type := { owner : StarlinkClient; world : Env Dev; marks : list Mark }.

Definition mark (m : Mark) (s : Thread) : Thread :=
  {| owner := owner s; world := world s; marks := marks s ++ [m] |}.

Definition set_timer (t : QTimer) (s : Thread) : Thread :=
  {| owner := set_pollTimer t (owner s); world := world s; marks := marks s |}.

(** Running a member function to its return.  [pump] is what the event
  loop does when the function hands control back to it. *)
Fixpoint exec {A : Type} (pump : Thread -> Thread) (p : Prog A) (s : Thread) : A * Thread :=
  match p with
  | Done a => (a, s)
  | Blocking request k =>
      let '(r, d) := Handle (device (world s)) (clock (world s)) request in
      exec pump (k (status r, response r))
           {| owner := owner s;
              world := {| device := d; clock := clock (world s) + latency r |};
              marks := marks s |}
  | Emitting sig k => exec pump k (mark (Sent (Emit sig)) s)
  | Logging items k => exec pump k (mark (Sent (Warning items)) s)
  | TimerStart msec k =>
      exec pump k (set_timer (QTimer_start msec (clock (world s)) (pollTimer_ (owner s))) s)
  | TimerStop k => exec pump k (set_timer (QTimer_stop (pollTimer_ (owner s))) s)
  | ProcessEvents k => exec pump k (pump s)
  | Entering k => exec pump k (mark (CycleBegan (clock (world s))) s)
  | Leaving k => exec pump k (mark (CycleEnded (clock (world s))) s)
  end.

(** Delivery of the timer's [timeout()] to the connected slot, when due. *)
Definition timeout (pump : Thread -> Thread) (slot : Prog unit) (s : Thread) : Thread :=
  if QTimer_due (clock (world s)) (pollTimer_ (owner s)) then
    snd (exec pump slot
           (set_timer (QTimer_rearm (clock (world s)) (pollTimer_ (owner s))) s))
  else s.

(** The event loop entered from inside a handler, event loops nesting at
  most [depth] deep: it delivers the timer, and the slot it runs may enter
  the event loop in turn. *)
Fixpoint processEvents (depth : nat) (slot : Prog unit) (s : Thread) : Thread :=
  match depth with
  | O => s
  | S d => timeout (processEvents d slot) slot s
  end.

(** One action of the thread at the top of its event loop. *)
Definition step (depth : nat) (code : Code) (a : Action) (s : Thread) : Thread :=
  let pump := processEvents depth (on_timeout code) in
  match a with
  | Elapse d =>
      {| owner := owner s;
         world := {| device := device (world s); clock := clock (world s) + d |};
         marks := marks s |}
  | Tick => timeout pump (on_timeout code) s
  | CallStart => snd (exec pump (start code) s)
  | CallStop => snd (exec pump (stop code) s)
  end.

Definition run (depth : nat) (code : Code) (acts : list Action) (s : Thread) : Thread :=
  fold_left (fun s a => step depth code a s) acts s.

End Run.

Arguments Thread : clear implicits.

(** Reading a trace from its beginning: whether a cycle is open, and the
  time of the last entry or return; [None] once a cycle was entered while
  another was open, something was emitted outside a cycle, a cycle was
  left that was not open, or time went backwards. *)
Definition scan1 (st : option (bool * N)) (m : Mark) : option (bool * N) :=
  match st with
  | None => None
  | Some (inside, last) =>
      match m with
      | CycleBegan t => if negb inside && (last <=? t) then Some (true, t) else None
      | CycleEnded t => if inside && (last <=? t) then Some (false, t) else None
      | Sent _ => if inside then Some (inside, last) else None
      end
  end.

Definition scan (l : list Mark) : option (bool * N) := fold_left scan1 l (Some (false, 0)).

(** The trace of a thread at rest shows one cycle at a time: every cycle
  was left before the next was entered, everything emitted or logged lies
  inside a cycle, and no cycle is open. *)
Definition one_cycle_at_a_time (l : list Mark) : bool :=
  match scan l with
  | Some (false, _) => true
  | _ => false
  end.

(** What the observers were sent, read off the trace. *)
Definition sent (l : list Mark) : list Output :=
  flat_map (fun m => match m with Sent o => [o] | _ => [] end) l.

(** The thread is at rest: its trace shows one cycle at a time, none open,
  and nothing in it is later than the clock. *)
Definition at_rest {Dev : Type} (th : Thread Dev) : Prop :=
  exists t : N, scan (marks th) = Some (false, t) /\ t <= clock (world th).

(** The thread and the application of [step] tell the same story: the same
  poller, device and clock, and the same outputs in the same order. *)
Definition agrees {Dev : Type} (th : Thread Dev) (s : App Dev) : Prop :=
  owner th = poller s /\ world th = env s /\ sent (marks th) = observed s.

(** A thread that owns an unstarted poller and has done nothing yet. *)
Definition idle_thread {Dev : Type} (e : Env Dev) : Thread Dev :=
  {| owner := idle_client; world := e; marks := [] |}.

End GuiThread.

(** ** What each call contributes to a cycle *)

Definition status_outputs (r : Reply) : list Output :=
  if grpc.ok (status r) then
  Emit (statusChanged true) ::
  (if Device.has_get_device_info (response r) then
     let info := Device.device_info (Device.get_device_info (response r)) in
     [Emit (satelliteInfoUpdated (fromStdString (Device.id info))
                                 (fromStdString (Device.hardware_version info)))]
   else [])
  else
  [Emit (statusChanged false);
   Warning ["gRPC Status Failed:"; c_str (grpc.error_message (status r))]].

Definition location_outputs (r : Reply) : list Output :=
  if grpc.ok (status r) && Device.has_get_location (response r) then
  let loc := Device.get_location (response r) in
  if Device.has_lla loc then
    [Emit (locationUpdated (Device.lat (Device.lla loc))
                           (Device.lon (Device.lla loc))
                           (Device.alt (Device.lla loc)))]
  else []
  else [].

Definition history_outputs (r : Reply) : list Output :=
  if grpc.ok (status r) then
  [Emit (speedUpdated (float_literal 100) (float_literal 20) (float_literal 30))]
  else [].

(** * Properties *)

Section CycleFacts.
Context {Dev : Type} `{Stub Dev}.

(** [fetchStatus] makes the three calls in order and contributes, for each
  reply, the outputs read off that reply alone. *)
Lemma fetchStatus_unfold (e : Env Dev) :
  fetchStatus e =
  (tt, snd (history_call e),
   status_outputs (fst (status_call e)) ++
   location_outputs (fst (location_call e)) ++
   history_outputs (fst (history_call e))).
Proof.
  unfold history_call, location_call, status_call.
  unfold fetchStatus, bind, stub_Handle, emit, ret, qWarning.
  unfold status_outputs, location_outputs, history_outputs.
  destruct (Handle (device e) (clock e) _) as [r1 d1]; cbn [fst snd device clock].
  destruct (grpc.ok (status r1));
    [ destruct (Device.has_get_device_info (response r1)) | ];
    cbn [fst snd device clock];
    ( destruct (Handle d1 _ _) as [r2 d2]; cbn [fst snd device clock andb];
      destruct (grpc.ok (status r2)), (Device.has_get_location (response r2));
      cbn [fst snd device clock andb]; cbv zeta;
      try destruct (Device.has_lla (Device.get_location (response r2)));
      cbn [fst snd device clock];
      destruct (Handle d2 _ _) as [r3 d3]; cbn [fst snd device clock];
      destruct (grpc.ok (status r3)); reflexivity ).
Qed.

Lemma cycle_outputs_unfold (e : Env Dev) :
  cycle_outputs e =
  status_outputs (fst (status_call e)) ++
  location_outputs (fst (location_call e)) ++
  history_outputs (fst (history_call e)).
Proof. unfold cycle_outputs. rewrite fetchStatus_unfold. reflexivity. Qed.

End CycleFacts.

(** Case analysis on everything a cycle branches on: the three statuses and
  the three presence tests. *)
Ltac cycle_cases e :=
  unfold cycle_signals; rewrite ?cycle_outputs_unfold;
  unfold status_ok, location_ok, history_ok, carries_device_info, carries_position;
  unfold status_outputs, location_outputs, history_outputs;
  destruct (grpc.ok (status (fst (status_call e))));
  destruct (Device.has_get_device_info (response (fst (status_call e))));
  destruct (grpc.ok (status (fst (location_call e))));
  destruct (Device.has_get_location (response (fst (location_call e))));
  destruct (Device.has_lla (Device.get_location (response (fst (location_call e)))));
  destruct (grpc.ok (status (fst (history_call e))));
  cbn [andb app signals warnings flat_map of_kind filter kind Kind_eqb rank Nat.eqb map].

Section Cycles.
Context {Dev : Type} `{Stub Dev}.

(** C1: every execution of [fetchStatus] emits exactly one [statusChanged]
  signal, and its argument is [true] exactly when the Status call of that
  cycle returned an OK status. *)
Theorem one_statusChanged_per_cycle (e : Env Dev) :
  of_kind ConnectionState (cycle_signals e) = [statusChanged (status_ok e)].
Proof. cycle_cases e; reflexivity. Qed.

(** C2: the [satelliteInfoUpdated] signals of a cycle are one signal with
  the id and hardware version of the status response when the Status call
  succeeded and the response carries device info, and none otherwise; so
  one is emitted if and only if both hold, and none is emitted in a cycle
  that emitted [statusChanged false]. *)
Theorem satelliteInfoUpdated_iff (e : Env Dev) :
  of_kind DeviceIdentity (cycle_signals e) =
    (if status_ok e && carries_device_info e then
       let info := Device.device_info (Device.get_device_info (response (fst (status_call e)))) in
       [satelliteInfoUpdated (fromStdString (Device.id info))
                             (fromStdString (Device.hardware_version info))]
     else [])
  /\ ((exists i h, In (satelliteInfoUpdated i h) (cycle_signals e)) <->
      status_ok e = true /\ carries_device_info e = true)
  /\ (In (statusChanged false) (cycle_signals e) ->
      forall i h, ~ In (satelliteInfoUpdated i h) (cycle_signals e)).
Proof.
  cycle_cases e; (split; [reflexivity | split; [split | ]]).
  all: try (intros [i [h Hin]];
            first [ split; reflexivity | cbn in Hin; intuition discriminate ]).
  all: try (intros [H1 H2];
            first [ discriminate | do 2 eexists; right; left; reflexivity ]).
  all: intros Hf i h Hin; cbn in Hf, Hin; intuition discriminate.
Qed.

(** C3: the [locationUpdated] signals of a cycle are read off the Location
  reply alone and the [speedUpdated] signals off the History status alone,
  whatever the Status call returned; and when the Status call fails while
  the Location call succeeds with a resolved position and the History call
  succeeds, the cycle emits exactly [statusChanged false], the position and
  the throughput sample. *)
Theorem position_and_speed_ignore_status (e : Env Dev) :
  of_kind GeoPosition (cycle_signals e) =
    (if location_ok e && carries_position e then
       let p := Device.lla (Device.get_location (response (fst (location_call e)))) in
       [locationUpdated (Device.lat p) (Device.lon p) (Device.alt p)]
     else [])
  /\ of_kind ThroughputSample (cycle_signals e) =
    (if history_ok e then
       [speedUpdated (float_literal 100) (float_literal 20) (float_literal 30)]
     else [])
  /\ (status_ok e = false -> location_ok e = true -> carries_position e = true ->
      history_ok e = true ->
      let p := Device.lla (Device.get_location (response (fst (location_call e)))) in
      cycle_signals e =
      [statusChanged false;
       locationUpdated (Device.lat p) (Device.lon p) (Device.alt p);
       speedUpdated (float_literal 100) (float_literal 20) (float_literal 30)]).
Proof.
  cycle_cases e; repeat split; intros; try discriminate; reflexivity.
Qed.

(** C4: the signals of a cycle come in strictly increasing order of kind,
  ConnectionState < DeviceIdentity < GeoPosition < ThroughputSample, so in
  the fixed order and at most one of each; the first is [statusChanged]. *)
Theorem cycle_signals_in_fixed_order (e : Env Dev) :
  StronglySorted lt (map (fun s => rank (kind s)) (cycle_signals e))
  /\ exists rest, cycle_signals e = statusChanged (status_ok e) :: rest.
Proof.
  cycle_cases e; (split; [repeat constructor | eexists; reflexivity]).
Qed.

(** C5: a failed Location call, or a location response without a resolved
  position, leaves the cycle without [locationUpdated]; a failed History
  call leaves it without [speedUpdated]; and the warnings of a cycle are
  the one line reporting the Status failure when the Status call failed,
  and none otherwise, whatever the other two calls returned. *)
Theorem silent_degradation (e : Env Dev) :
  (location_ok e = false \/ carries_position e = false ->
   of_kind GeoPosition (cycle_signals e) = [])
  /\ (history_ok e = false -> of_kind ThroughputSample (cycle_signals e) = [])
  /\ warnings (cycle_outputs e) =
     (if status_ok e then []
      else [["gRPC Status Failed:"; c_str (grpc.error_message (status (fst (status_call e))))]]).
Proof.
  cycle_cases e; repeat split; intros; try reflexivity; try discriminate;
    intuition discriminate.
Qed.

(** The three literals are exact in binary32: 100, 20 and 30. *)
Lemma placeholder_literals :
  float_literal 100 = S754_finite false 13107200 (-17)
  /\ float_literal 20 = S754_finite false 10485760 (-19)
  /\ float_literal 30 = S754_finite false 15728640 (-19)
  /\ float_is_integer (float_literal 100) 100 = true
  /\ float_is_integer (float_literal 20) 20 = true
  /\ float_is_integer (float_literal 30) 30 = true
  /\ valid_binary 24 128 (float_literal 100) = true
  /\ valid_binary 24 128 (float_literal 20) = true
  /\ valid_binary 24 128 (float_literal 30) = true.
Proof. repeat split; vm_compute; reflexivity. Qed.

(** C6: when the History call succeeds, the cycle emits one [speedUpdated]
  signal, and its values are the constants 100.0f, 20.0f and 30.0f: the
  history response is not read. *)
Theorem speedUpdated_is_placeholder (e : Env Dev) :
  history_ok e = true ->
  of_kind ThroughputSample (cycle_signals e) =
    [speedUpdated (S754_finite false 13107200 (-17))
                  (S754_finite false 10485760 (-19))
                  (S754_finite false 15728640 (-19))].
Proof.
  destruct placeholder_literals as (<- & <- & <- & _).
  cycle_cases e; intros Hok; try discriminate; reflexivity.
Qed.

End Cycles.

(** ** Starting and stopping *)

Section Scheduling.
Context {Dev : Type} `{Stub Dev}.

Lemma fetchStatus_clock (e : Env Dev) : clock e <= clock (snd (fst (fetchStatus e))).
Proof.
  rewrite fetchStatus_unfold. cbn [fst snd].
  unfold history_call, location_call, status_call.
  destruct (Handle (device e) (clock e) _) as [r1 d1]; cbn [fst snd device clock].
  destruct (Handle d1 _ _) as [r2 d2]; cbn [fst snd device clock].
  destruct (Handle d2 _ _) as [r3 d3]; cbn [fst snd device clock].
  lia.
Qed.

Lemma startMonitoring_unfold (this : StarlinkClient) (e : Env Dev) :
  startMonitoring this e =
  (set_pollTimer (QTimer_start 5000 (clock e) (pollTimer_ this)) this,
   snd (fst (fetchStatus e)), snd (fetchStatus e)).
Proof.
  unfold startMonitoring, bind, currentTime, ret.
  destruct (fetchStatus e) as [[[] e'] o]. cbn [fst snd app].
  rewrite app_nil_r. reflexivity.
Qed.

Lemma stopMonitoring_unfold (this : StarlinkClient) (e : Env Dev) :
  stopMonitoring this e = (set_pollTimer (QTimer_stop (pollTimer_ this)) this, e, []).
Proof. reflexivity. Qed.

Lemma step_CallStart (s : App Dev) :
  step CallStart s =
  {| poller := set_pollTimer (QTimer_start 5000 (clock (env s)) (pollTimer_ (poller s))) (poller s);
     env := snd (fst (fetchStatus (env s)));
     observed := observed s ++ cycle_outputs (env s);
     cycles := cycles s ++ [{| began := clock (env s);
                               ended := clock (snd (fst (fetchStatus (env s))));
                               outputs := cycle_outputs (env s) |}] |}.
Proof. unfold step. rewrite startMonitoring_unfold. reflexivity. Qed.

Lemma step_CallStop (s : App Dev) :
  step CallStop s =
  {| poller := set_pollTimer (QTimer_stop (pollTimer_ (poller s))) (poller s);
     env := env s; observed := observed s; cycles := cycles s |}.
Proof. unfold step. rewrite stopMonitoring_unfold, app_nil_r. reflexivity. Qed.

Lemma step_Tick_due (s : App Dev) :
  QTimer_due (clock (env s)) (pollTimer_ (poller s)) = true ->
  step Tick s =
  {| poller := set_pollTimer (QTimer_rearm (clock (env s)) (pollTimer_ (poller s))) (poller s);
     env := snd (fst (fetchStatus (env s)));
     observed := observed s ++ cycle_outputs (env s);
     cycles := cycles s ++ [{| began := clock (env s);
                               ended := clock (snd (fst (fetchStatus (env s))));
                               outputs := cycle_outputs (env s) |}] |}.
Proof.
  intros Hdue. unfold step, cycle_outputs. rewrite Hdue.
  destruct (fetchStatus (env s)) as [[[] e'] o]. reflexivity.
Qed.

Lemma run_app (a b : list Action) (s : App Dev) : run (a ++ b) s = run b (run a s).
Proof. apply fold_left_app. Qed.

(** C7 (as amended): [startMonitoring], on an Idle and on a Running poller
  alike, first arms the timer with a period of 5000 ms counted from the
  time of the call, which leaves the poller Running, and then performs one
  cycle at once: the device, the clock and the outputs it returns are
  those of [fetchStatus] run from the state of the call. *)
Theorem startMonitoring_arms_then_fetches (this : StarlinkClient) (e : Env Dev) :
  startMonitoring this e =
    ({| pollTimer_ := {| isActive := true; interval := 5000; expiry := clock e + 5000 |};
        target_ := target_ this |},
     snd (fst (fetchStatus e)), cycle_outputs e)
  /\ poller_state (fst (fst (startMonitoring this e))) = Running
  /\ of_kind ConnectionState (signals (snd (startMonitoring this e))) =
     [statusChanged (status_ok e)].
Proof.
  rewrite startMonitoring_unfold. cbn [fst snd].
  repeat split.
  fold (cycle_outputs e). fold (cycle_signals e).
  cycle_cases e; reflexivity.
Qed.

(** C8: [stopMonitoring] leaves the poller Idle and lets the observers see
  nothing; a [startMonitoring] after it arms the 5000 ms timer and runs one
  cycle at once; and from then on the application goes, whatever comes
  next, exactly as it does when the same call is the first start of a
  poller that was only constructed. *)
Theorem stop_then_start_as_first_start (s : App Dev) (acts : list Action) :
  let s1 := step CallStop s in
  poller_state (poller s1) = Idle
  /\ env s1 = env s /\ observed s1 = observed s /\ cycles s1 = cycles s
  /\ pollTimer_ (poller (step CallStart s1)) =
     {| isActive := true; interval := 5000; expiry := clock (env s) + 5000 |}
  /\ observed (step CallStart s1) = observed s ++ cycle_outputs (env s)
  /\ run (CallStart :: acts) s1 = run (CallStart :: acts) (never_started s).
Proof.
  cbv zeta. rewrite step_CallStop.
  split; [reflexivity | ].
  do 3 (split; [reflexivity | ]).
  rewrite step_CallStart. cbn [poller env observed cycles pollTimer_ set_pollTimer].
  do 2 (split; [reflexivity | ]).
  change (CallStart :: acts) with ([CallStart] ++ acts).
  rewrite !run_app. apply f_equal.
  unfold run. cbn [fold_left].
  rewrite !step_CallStart. reflexivity.
Qed.

End Scheduling.

(** ** The history of the application thread *)

Section History.
Context {Dev : Type} `{Stub Dev}.

(** Once the timer is stopped, the thread's own doings run no cycle. *)
Lemma idle_step_is_silent (a : Action) (s : App Dev) :
  loop_only a = true ->
  isActive (pollTimer_ (poller s)) = false ->
  poller (step a s) = poller s /\ observed (step a s) = observed s
  /\ cycles (step a s) = cycles s.
Proof.
  intros Ha Hidle. destruct a as [d | | |]; try discriminate.
  - repeat split.
  - unfold step, QTimer_due. rewrite Hidle. repeat split.
Qed.

Lemma idle_loop_is_silent (acts : list Action) (s : App Dev) :
  forallb loop_only acts = true ->
  isActive (pollTimer_ (poller s)) = false ->
  observed (run acts s) = observed s /\ cycles (run acts s) = cycles s.
Proof.
  revert s. induction acts as [| a acts IH]; intros s Hacts Hidle.
  - split; reflexivity.
  - cbn in Hacts. apply andb_prop in Hacts. destruct Hacts as [Ha Hacts].
    destruct (idle_step_is_silent a s Ha Hidle) as (Hp & Ho & Hc).
    change (run (a :: acts) s) with (run acts (step a s)).
    destruct (IH (step a s) Hacts) as [Ho' Hc'].
    + rewrite Hp. exact Hidle.
    + rewrite Ho', Hc', Ho, Hc. split; reflexivity.
Qed.

Lemma QTimer_stop_idle (t : QTimer) : isActive t = false -> QTimer_stop t = t.
Proof. destruct t as [a i x]. cbn. intros ->. reflexivity. Qed.

Lemma destroy_unfold (s : App Dev) :
  destroy s =
  {| poller := set_pollTimer (QTimer_stop (pollTimer_ (poller s))) (poller s);
     env := env s; observed := observed s; cycles := cycles s |}.
Proof.
  unfold destroy, StarlinkClient_destroy. rewrite stopMonitoring_unfold, app_nil_r.
  reflexivity.
Qed.

(** C10: the destructor stops the timer: the poller is left Idle, nothing
  is emitted by the destruction, and whatever the thread does afterwards
  on its own (time passing, timers delivered) runs no cycle and shows the
  observers nothing; this holds from every state of the poller, and on an
  Idle poller the destruction changes nothing at all. *)
Theorem destroy_stops_polling (s : App Dev) (acts : list Action) :
  forallb loop_only acts = true ->
  poller_state (poller (destroy s)) = Idle
  /\ observed (destroy s) = observed s
  /\ observed (run acts (destroy s)) = observed s
  /\ cycles (run acts (destroy s)) = cycles s
  /\ (poller_state (poller s) = Idle -> destroy s = s).
Proof.
  intros Hacts. rewrite destroy_unfold.
  split; [reflexivity | split; [reflexivity |]].
  destruct (idle_loop_is_silent acts
              {| poller := set_pollTimer (QTimer_stop (pollTimer_ (poller s))) (poller s);
                 env := env s; observed := observed s; cycles := cycles s |}
              Hacts eq_refl) as [Hobs Hcyc].
  split; [exact Hobs | split; [exact Hcyc |]].
  unfold poller_state. intros Hidle.
  destruct (isActive (pollTimer_ (poller s))) eqn:Hact; [discriminate |].
  rewrite (QTimer_stop_idle _ Hact).
  destruct s as [[t tg] ev ob cy]. reflexivity.
Qed.

End History.

(** ** The poller on concrete devices *)

(** Spec 8, first scenario. *)
Example all_good_cycle :
  cycle_outputs all_good =
  [Emit (statusChanged true);
   Emit (satelliteInfoUpdated "SAT123" "rev2");
   Emit (locationUpdated (Device.lat here) (Device.lon here) (Device.alt here));
   Emit (speedUpdated (float_literal 100) (float_literal 20) (float_literal 30))].
Proof. reflexivity. Qed.

(** Spec 8, second scenario, with the warning the status failure leaves. *)
Example status_down_cycle :
  cycle_outputs status_down =
  [Emit (statusChanged false);
   Warning ["gRPC Status Failed:"; "failed to connect to all addresses"];
   Emit (locationUpdated (Device.lat here) (Device.lon here) (Device.alt here));
   Emit (speedUpdated (float_literal 100) (float_literal 20) (float_literal 30))].
Proof. reflexivity. Qed.

(** On the sluggish device a cycle takes 21 s, four periods of the timer:
  the timer is overdue whenever a cycle returns, and the next cycle begins
  where the one before ended. *)
Example sluggish_cycles :
  map (fun c => (began c, ended c)) (cycles (run [Tick; Tick; Tick] started)) =
  [(0, 21000); (21000, 42000); (42000, 63000); (63000, 84000)].
Proof. vm_compute. reflexivity. Qed.

(** Left alone for 20 s, the started poller runs three more cycles. *)
Example started_keeps_polling :
  List.length (cycles (run twenty_seconds started)) = 4%nat.
Proof. vm_compute. reflexivity. Qed.

(** The timer of [startMonitoring] counts from the call, the timer of the
  spec's [start()] from the end of the first cycle; and a second start at
  3 s moves the expiry from 5 s to 8 s, where the spec leaves it at 5 s. *)
Example start_expiries :
  expiry (pollTimer_ (fst (fst (startMonitoring idle_client all_good)))) = 5000
  /\ expiry (pollTimer_ (fst (fst (start_as_specified idle_client all_good)))) = 5135
  /\ expiry (pollTimer_ (fst (fst (startMonitoring running_client at_3s)))) = 8000
  /\ expiry (pollTimer_ (fst (fst (start_as_specified running_client at_3s)))) = 5000.
Proof. repeat split. Qed.

(** C7 (counterexample): [startMonitoring] is not the [start()] that spec
  4.2 words.  On an Idle poller whose first cycle takes 135 ms the spec
  arms the timer after the cycle, the code before it; on a poller Running
  since time 0 and started again at 3 s the spec leaves the timer as it
  is, the code restarts it. *)
Lemma start_is_not_as_specified :
  startMonitoring idle_client all_good <> start_as_specified idle_client all_good
  /\ startMonitoring running_client at_3s <> start_as_specified running_client at_3s.
Proof.
  split; intros Heq;
    apply (f_equal (fun r => expiry (pollTimer_ (fst (fst r))))) in Heq;
    vm_compute in Heq; discriminate.
Qed.

(** C2 (witness): with the device of the first scenario the cycle emits a
  [satelliteInfoUpdated] signal. *)
Lemma satelliteInfoUpdated_iff_witness :
  exists i h, In (satelliteInfoUpdated i h) (cycle_signals all_good).
Proof.
  apply (proj2 (proj1 (proj2 (satelliteInfoUpdated_iff all_good)))).
  split; reflexivity.
Defined.

(** C3 (witness): the second scenario of spec 8. *)
Lemma position_and_speed_ignore_status_witness :
  cycle_signals status_down =
  [statusChanged false;
   locationUpdated (Device.lat here) (Device.lon here) (Device.alt here);
   speedUpdated (float_literal 100) (float_literal 20) (float_literal 30)].
Proof.
  exact (proj2 (proj2 (position_and_speed_ignore_status status_down))
           eq_refl eq_refl eq_refl eq_refl).
Defined.

(** C5 (witness): when only the status call succeeds, no position and no
  throughput sample are emitted; nor is a position when the location call
  succeeds without one. *)
Lemma silent_degradation_witness :
  of_kind GeoPosition (cycle_signals only_status) = []
  /\ of_kind ThroughputSample (cycle_signals only_status) = []
  /\ of_kind GeoPosition (cycle_signals no_fix) = []
  /\ warnings (cycle_outputs no_fix) = [].
Proof.
  split; [| split; [| split]].
  - apply (proj1 (silent_degradation only_status)). left. reflexivity.
  - apply (proj1 (proj2 (silent_degradation only_status))). reflexivity.
  - apply (proj1 (silent_degradation no_fix)). right. reflexivity.
  - exact (proj2 (proj2 (silent_degradation no_fix))).
Defined.

(** C6 (witness): a history response with a sample of 250/10/45 still
  yields the placeholder. *)
Lemma speedUpdated_is_placeholder_witness :
  history_ok busy = true
  /\ of_kind ThroughputSample (cycle_signals busy) =
     [speedUpdated (S754_finite false 13107200 (-17))
                   (S754_finite false 10485760 (-19))
                   (S754_finite false 15728640 (-19))].
Proof.
  split; [reflexivity | apply (speedUpdated_is_placeholder busy); reflexivity].
Defined.

(** C10 (witness): the started poller, destroyed, runs no cycle in the 20 s
  in which it would otherwise have run three. *)
Lemma destroy_stops_polling_witness :
  forallb loop_only twenty_seconds = true
  /\ observed (run twenty_seconds (destroy started)) = observed started
  /\ cycles (run twenty_seconds (destroy started)) = cycles started.
Proof.
  split; [reflexivity |].
  destruct (destroy_stops_polling started twenty_seconds) as (_ & _ & Ho & Hc & _);
    [reflexivity | split; assumption].
Defined.

(** * Further properties of the poller *)

Lemma signals_app (a b : list Output) : signals (a ++ b) = signals a ++ signals b.
Proof. apply flat_map_app. Qed.

Lemma warnings_app (a b : list Output) : warnings (a ++ b) = warnings a ++ warnings b.
Proof. apply flat_map_app. Qed.

Lemma of_kind_app (k : Kind) (a b : list Signal) :
  of_kind k (a ++ b) = of_kind k a ++ of_kind k b.
Proof. apply filter_app. Qed.

Section Calls.
Context {Dev : Type} `{Stub Dev}.

Lemma Recording_Handle (d : Dev) (log : list Device.Request) (now : N)
    (request : Device.Request) :
  @Handle _ Recording (d, log) now request =
  (fst (Handle d now request), (snd (Handle d now request), log ++ [request])).
Proof.
  unfold Handle at 1. unfold Recording. cbn [fst snd].
  destruct (Handle d now request); reflexivity.
Qed.

Lemma status_call_recorded (log : list Device.Request) (e : Env Dev) :
  @status_call _ Recording (recorded log e) =
  (fst (status_call e),
   recorded (log ++ [Device.mutable_get_status Device.Request_new]) (snd (status_call e))).
Proof.
  unfold status_call, recorded. cbn [device clock]. rewrite Recording_Handle.
  destruct (Handle (device e) (clock e) _) as [r d]. reflexivity.
Qed.

Lemma location_call_recorded (log : list Device.Request) (e : Env Dev) :
  @location_call _ Recording (recorded log e) =
  (fst (location_call e),
   recorded (log ++ [Device.mutable_get_status Device.Request_new;
                     Device.mutable_get_location Device.Request_new])
            (snd (location_call e))).
Proof.
  unfold location_call. rewrite status_call_recorded. cbn [snd].
  unfold recorded. cbn [device clock]. rewrite Recording_Handle.
  destruct (Handle (device (snd (status_call e))) _ _) as [r d]. cbn [fst snd].
  rewrite <- app_assoc. reflexivity.
Qed.

Lemma history_call_recorded (log : list Device.Request) (e : Env Dev) :
  @history_call _ Recording (recorded log e) =
  (fst (history_call e),
   recorded (log ++ [Device.mutable_get_status Device.Request_new;
                     Device.mutable_get_location Device.Request_new;
                     Device.mutable_get_history Device.Request_new])
            (snd (history_call e))).
Proof.
  unfold history_call. rewrite location_call_recorded. cbn [snd].
  unfold recorded. cbn [device clock]. rewrite Recording_Handle.
  destruct (Handle (device (snd (location_call e))) _ _) as [r d]. cbn [fst snd].
  rewrite <- app_assoc. reflexivity.
Qed.

(** X1: whatever the device answers, one [fetchStatus] hands the stub
  exactly three requests, get_status, get_location and get_history in this
  order: a failed call never cancels the calls after it.  The recording
  stub changes nothing else: outputs, device and clock are those of the
  cycle run without it. *)
Theorem fetchStatus_makes_three_calls (log : list Device.Request) (e : Env Dev) :
  let r := @fetchStatus _ Recording (recorded log e) in
  snd (device (snd (fst r))) =
    log ++ [Device.mutable_get_status Device.Request_new;
            Device.mutable_get_location Device.Request_new;
            Device.mutable_get_history Device.Request_new]
  /\ fst (device (snd (fst r))) = device (snd (fst (fetchStatus e)))
  /\ clock (snd (fst r)) = clock (snd (fst (fetchStatus e)))
  /\ snd r = cycle_outputs e.
Proof.
  cbv zeta. unfold cycle_outputs. rewrite !fetchStatus_unfold. cbn [fst snd].
  rewrite history_call_recorded, location_call_recorded, status_call_recorded.
  cbn [fst snd recorded device clock]. repeat split.
Qed.

End Calls.

Section CycleSize.
Context {Dev : Type} `{Stub Dev}.


Lemma cycle_statusChanged_count (e : Env Dev) :
  List.length (of_kind ConnectionState (cycle_signals e)) = 1%nat.
Proof. cycle_cases e; reflexivity. Qed.

Lemma cycle_warnings_count (e : Env Dev) :
  (List.length (warnings (cycle_outputs e)) <= 1)%nat.
Proof. cycle_cases e; cbn; lia. Qed.

(** X3: a cycle emits at least one and at most four signals and logs at
  most one warning; it emits four exactly when all three calls succeed and
  the responses carry device info and a position, and it logs a warning
  exactly when the status call failed. *)
Theorem cycle_size (e : Env Dev) :
  (1 <= List.length (cycle_signals e) <= 4)%nat
  /\ (List.length (cycle_signals e) = 4%nat <->
      status_ok e && carries_device_info e && location_ok e && carries_position e
        && history_ok e = true)
  /\ (List.length (warnings (cycle_outputs e)) = 1%nat <-> status_ok e = false)
  /\ (List.length (warnings (cycle_outputs e)) = 0%nat <-> status_ok e = true).
Proof.
  cycle_cases e; cbn;
    repeat split; intros; try lia; try discriminate; try reflexivity.
Qed.

End CycleSize.

Section Lifetime.
Context {Dev : Type} `{Stub Dev}.

(** What every step keeps, every run keeps. *)
Lemma run_invariant (P : App Dev -> Prop) :
  (forall a s, P s -> P (step a s)) ->
  forall acts s, P s -> P (run acts s).
Proof.
  intros Hstep acts. induction acts as [| a acts IH]; intros s Hs.
  - exact Hs.
  - change (run (a :: acts) s) with (run acts (step a s)). apply IH, Hstep, Hs.
Qed.

Lemma run_guarded_invariant (ok : Action -> bool) (P : App Dev -> Prop) :
  (forall a s, ok a = true -> P s -> P (step a s)) ->
  forall acts s, forallb ok acts = true -> P s -> P (run acts s).
Proof.
  intros Hstep acts. induction acts as [| a acts IH]; intros s Hacts Hs.
  - exact Hs.
  - cbn in Hacts. apply andb_prop in Hacts. destruct Hacts as [Ha Hacts].
    change (run (a :: acts) s) with (run acts (step a s)).
    apply IH; [exact Hacts | apply Hstep; assumption].
Qed.

Lemma told_once_after_cycle (s : App Dev) (this : StarlinkClient) (e' : Env Dev) (t t' : N) :
  told_once_per_cycle s ->
  told_once_per_cycle
    {| poller := this; env := e'; observed := observed s ++ cycle_outputs (env s);
       cycles := cycles s ++ [{| began := t; ended := t';
                                 outputs := cycle_outputs (env s) |}] |}.
Proof.
  intros [Hsig Hwarn]. unfold told_once_per_cycle. cbn [observed cycles].
  rewrite signals_app, of_kind_app, warnings_app, !length_app.
  fold (cycle_signals (env s)). rewrite cycle_statusChanged_count.
  pose proof (cycle_warnings_count (env s)). cbn [List.length]. lia.
Qed.

Lemma step_told_once (a : Action) (s : App Dev) :
  told_once_per_cycle s -> told_once_per_cycle (step a s).
Proof.
  intros Hs. destruct a as [d | | |].
  - exact Hs.
  - destruct (QTimer_due (clock (env s)) (pollTimer_ (poller s))) eqn:Hdue.
    + rewrite step_Tick_due by exact Hdue. apply told_once_after_cycle, Hs.
    + unfold step. rewrite Hdue. exact Hs.
  - rewrite step_CallStart. apply told_once_after_cycle, Hs.
  - rewrite step_CallStop. exact Hs.
Qed.

(** X4: over the whole life of the application, whatever is called and
  whatever the device answers, the observers receive exactly as many
  [statusChanged] signals as cycles were run, and the log holds at most as
  many warnings. *)
Theorem statusChanged_count_is_cycle_count (this : StarlinkClient) (e : Env Dev)
    (acts : list Action) :
  let s := run acts {| poller := this; env := e; observed := []; cycles := [] |} in
  List.length (of_kind ConnectionState (signals (observed s))) = List.length (cycles s)
  /\ (List.length (warnings (observed s)) <= List.length (cycles s))%nat.
Proof.
  cbv zeta. apply (run_invariant told_once_per_cycle).
  - intros a s. apply step_told_once.
  - split; cbn; lia.
Qed.

(** X5: a poller that was constructed and never started does nothing: as
  long as [startMonitoring] is not called, however much time passes and
  whatever else is called, nothing is emitted or logged, no cycle runs,
  the device is never contacted, and the poller stays Idle. *)
Theorem constructed_poller_is_silent (target : QString) (e : Env Dev) (acts : list Action) :
  forallb never_starts acts = true ->
  let s := run acts (boot target e) in
  observed s = [] /\ cycles s = [] /\ device (env s) = device e
  /\ poller_state (poller s) = Idle.
Proof.
  intros Hacts. cbv zeta.
  apply (run_guarded_invariant never_starts
           (fun s => observed s = [] /\ cycles s = [] /\ device (env s) = device e
                     /\ poller_state (poller s) = Idle)); [| exact Hacts | repeat split].
  intros a s Ha (Ho & Hc & Hd & Hi).
  unfold poller_state in Hi.
  destruct (isActive (pollTimer_ (poller s))) eqn:Hact; [discriminate |].
  destruct a as [d | | |]; try discriminate.
  - cbn. unfold poller_state. rewrite Hact. repeat split; assumption.
  - unfold step, QTimer_due. rewrite Hact. cbn [andb]. unfold poller_state.
    rewrite Hact. repeat split; assumption.
  - rewrite step_CallStop. cbn. repeat split; assumption.
Qed.

(** X6: polling does not give up.  Once started, and as long as
  [stopMonitoring] is not called, the poller stays Running with a period of
  5000 ms and its target, whatever the device answers and however long it
  takes: no failure stops or slows the timer. *)
Theorem polling_survives_failures (s : App Dev) (acts : list Action) :
  forallb never_stops acts = true ->
  let s' := run acts (step CallStart s) in
  poller_state (poller s') = Running
  /\ interval (pollTimer_ (poller s')) = 5000
  /\ target_ (poller s') = target_ (poller s).
Proof.
  intros Hacts. cbv zeta.
  apply (run_guarded_invariant never_stops
           (fun s' => poller_state (poller s') = Running
                      /\ interval (pollTimer_ (poller s')) = 5000
                      /\ target_ (poller s') = target_ (poller s)));
    [| exact Hacts | rewrite step_CallStart; repeat split].
  intros a s' Ha (Hr & Hi & Ht).
  destruct a as [d | | |]; try discriminate.
  - repeat split; assumption.
  - destruct (QTimer_due (clock (env s')) (pollTimer_ (poller s'))) eqn:Hdue.
    + rewrite step_Tick_due by exact Hdue. cbn. repeat split; assumption.
    + unfold step. rewrite Hdue. repeat split; assumption.
  - rewrite step_CallStart. cbn. repeat split; assumption.
Qed.

End Lifetime.

(** * The main window *)

Section Window.
Context `{QStringArg}.

Lemma handle_all_invariant (P : MainWindow -> Prop) :
  (forall ev w, P w -> P (handle ev w)) ->
  forall evs w, P w -> P (handle_all evs w).
Proof.
  intros Hstep evs. induction evs as [| ev evs IH]; intros w Hw.
  - exact Hw.
  - change (handle_all (ev :: evs) w) with (handle_all evs (handle ev w)).
    apply IH, Hstep, Hw.
Qed.

Lemma handle_keeps_fixtures (w0 : MainWindow) (ev : UiEvent) (w : MainWindow) :
  fixtures_of w0 w -> fixtures_of w0 (handle ev w).
Proof.
  unfold fixtures_of. intros Hw.
  destruct ev as [reason | | | s]; cbn [handle].
  - destruct reason; cbn [onTrayIconActivated]; try exact Hw;
      destruct (isVisible w); exact Hw.
  - unfold close, closeEvent.
    case_eq (QSystemTrayIcon.isVisible (trayIcon_ w)); intros _; cbn; exact Hw.
  - exact Hw.
  - destruct s as [[] | | |]; exact Hw.
Qed.

(** X7: while the tray icon is shown, the window cannot be closed: a close
  event is ignored and only hides the window.  The tray icon that
  [createTrayIcon] shows is never hidden again, whatever events and signals
  reach the window afterwards, so this holds for the whole life of the
  window; a close request leaves the window hidden and its labels as they
  were. *)
Theorem close_only_hides (w0 : MainWindow) (evs : list UiEvent) :
  let w := handle_all evs (createTrayIcon w0) in
  QSystemTrayIcon.isVisible (trayIcon_ w) = true
  /\ closeEvent QCloseEvent_new w = (hide w, {| isAccepted := false |})
  /\ isVisible (close w) = false
  /\ (statusLabel_ (close w), speedLabel_ (close w),
      locationLabel_ (close w), satelliteLabel_ (close w)) =
     (statusLabel_ w, speedLabel_ w, locationLabel_ w, satelliteLabel_ w).
Proof.
  cbv zeta.
  assert (Hfix : fixtures_of (createTrayIcon w0) (handle_all evs (createTrayIcon w0))).
  { apply handle_all_invariant.
    - apply handle_keeps_fixtures.
    - repeat split. }
  destruct Hfix as (Hvis & _). cbn in Hvis.
  unfold close, closeEvent. rewrite Hvis. repeat split.
Qed.

(** X8: a click or a double click on the tray icon toggles the window: it
  hides a shown window and shows (and activates) a hidden one, so two in a
  row leave the window shown or hidden as it was; every other activation
  reason changes nothing; and no activation touches a label or the tray. *)
Theorem tray_activation_toggles (reason : QSystemTrayIcon.ActivationReason) (w : MainWindow) :
  let w' := onTrayIconActivated reason w in
  match reason with
  | QSystemTrayIcon.Trigger | QSystemTrayIcon.DoubleClick =>
      isVisible w' = negb (isVisible w)
      /\ isActiveWindow w' = negb (isVisible w)
      /\ isVisible (onTrayIconActivated reason w') = isVisible w
  | _ => w' = w
  end
  /\ (statusLabel_ w', speedLabel_ w', locationLabel_ w', satelliteLabel_ w', trayIcon_ w') =
     (statusLabel_ w, speedLabel_ w, locationLabel_ w, satelliteLabel_ w, trayIcon_ w).
Proof.
  destruct reason, w as [c t s1 s2 s3 s4 i1 i2 ti sz [] a]; cbn; repeat split.
Qed.

(** X9: a label changes only by its own signal.  Signals among which there
  is no [statusChanged] leave the status label and the tray icon and tool
  tip as they were, and likewise [speedUpdated] for the speed label,
  [locationUpdated] for the location label and [satelliteInfoUpdated] for
  the satellite label. *)
Theorem labels_change_only_by_their_signal (l : list Signal) (w : MainWindow) :
  (of_kind ConnectionState l = [] ->
   statusLabel_ (deliver_all l w) = statusLabel_ w
   /\ trayIcon_ (deliver_all l w) = trayIcon_ w)
  /\ (of_kind ThroughputSample l = [] -> speedLabel_ (deliver_all l w) = speedLabel_ w)
  /\ (of_kind GeoPosition l = [] -> locationLabel_ (deliver_all l w) = locationLabel_ w)
  /\ (of_kind DeviceIdentity l = [] -> satelliteLabel_ (deliver_all l w) = satelliteLabel_ w).
Proof.
  revert w. induction l as [| s l IH]; intros w.
  - repeat split.
  - change (deliver_all (s :: l) w) with (deliver_all l (deliver s w)).
    destruct (IH (deliver s w)) as (H1 & H2 & H3 & H4).
    destruct s as [[] | | |]; cbn [of_kind filter kind Kind_eqb rank Nat.eqb];
      (split; [| split; [| split]]); intros Hk; try discriminate;
      fold (of_kind ConnectionState l) in Hk; fold (of_kind ThroughputSample l) in Hk;
      fold (of_kind GeoPosition l) in Hk; fold (of_kind DeviceIdentity l) in Hk;
      first [ rewrite (H2 Hk) | rewrite (H3 Hk) | rewrite (H4 Hk)
            | destruct (H1 Hk) as [-> ->] ];
      repeat split.
Qed.

End Window.

Section WindowAndPoller.
Context `{QStringArg} {Dev : Type} `{Stub Dev}.

(** What the signals of one cycle do to a window. *)
Lemma window_after_cycle (e : Env Dev) (w : MainWindow) :
  let w' := deliver_all (cycle_signals e) w in
  statusLabel_ w' = (if status_ok e then "Status: Connected" else "Status: Disconnected")
  /\ QSystemTrayIcon.toolTip (trayIcon_ w') =
     (if status_ok e then "Starlink: Connected" else "Starlink: Disconnected")
  /\ QSystemTrayIcon.icon (trayIcon_ w') =
     (if status_ok e then connectedIcon_ w else disconnectedIcon_ w)
  /\ satelliteLabel_ w' =
     (if status_ok e && carries_device_info e then
        let info := Device.device_info (Device.get_device_info (response (fst (status_call e)))) in
        arg (arg "ID: %1 | HW: %2" (fromStdString (Device.id info)))
            (fromStdString (Device.hardware_version info))
      else satelliteLabel_ w)
  /\ locationLabel_ w' =
     (if location_ok e && carries_position e then
        let p := Device.lla (Device.get_location (response (fst (location_call e)))) in
        arg_double
          (arg_double (arg_double "Lat: %1 | Lon: %2 | Alt: %3 m" (Device.lat p) 0 "f" 4)
                      (Device.lon p) 0 "f" 4)
          (Device.alt p) 0 "f" 1
      else locationLabel_ w)
  /\ speedLabel_ w' =
     (if history_ok e then
        arg_double
          (arg_double
             (arg_double "Down: %1 Mbps | Up: %2 Mbps | Ping: %3 ms" (float_literal 100) 0 "f" 1)
             (float_literal 20) 0 "f" 1)
          (float_literal 30) 0 "f" 0
      else speedLabel_ w)
  /\ fixtures_of w w'
  /\ (isVisible w', isActiveWindow w') = (isVisible w, isActiveWindow w).
Proof.
  cbv zeta. unfold fixtures_of.
  cycle_cases e; cbn [deliver_all fold_left deliver]; repeat split.
Qed.

(** X10: after the signals of a cycle the status label, the tool tip and
  the icon of the tray agree with each other and with the cycle: they show
  Connected, with the connected icon, exactly when the status call
  succeeded, and Disconnected, with the disconnected icon, otherwise. *)
Theorem window_shows_status_of_cycle (e : Env Dev) (w : MainWindow) :
  let w' := deliver_all (cycle_signals e) w in
  statusLabel_ w' = (if status_ok e then "Status: Connected" else "Status: Disconnected")
  /\ QSystemTrayIcon.toolTip (trayIcon_ w') =
     (if status_ok e then "Starlink: Connected" else "Starlink: Disconnected")
  /\ QSystemTrayIcon.icon (trayIcon_ w') =
     (if status_ok e then connectedIcon_ w else disconnectedIcon_ w).
Proof.
  cbv zeta. destruct (window_after_cycle e w) as (H1 & H2 & H3 & _).
  repeat split; assumption.
Qed.

(** X11: a call that fails never blanks its label.  After a cycle whose
  status call failed (or whose response carries no device info) the
  satellite label still shows what it showed before; likewise the location
  label after a failed or position-less location call and the speed label
  after a failed history call.  So a window may show Disconnected next to
  the identity, position and speed of an earlier cycle. *)
Theorem failed_calls_keep_last_values (e : Env Dev) (w : MainWindow) :
  let w' := deliver_all (cycle_signals e) w in
  (status_ok e && carries_device_info e = false -> satelliteLabel_ w' = satelliteLabel_ w)
  /\ (location_ok e && carries_position e = false -> locationLabel_ w' = locationLabel_ w)
  /\ (history_ok e = false -> speedLabel_ w' = speedLabel_ w).
Proof.
  cbv zeta. destruct (window_after_cycle e w) as (_ & _ & _ & H4 & H5 & H6 & _).
  rewrite H4, H5, H6.
  repeat split; intros ->; reflexivity.
Qed.

End WindowAndPoller.

Section Construction.
Context `{QStringArg} {Dev : Type} `{Stub Dev}.

Lemma MainWindow_new_unfold (target : QString) (e : Env Dev) :
  MainWindow_new target e =
  (let w := deliver_all (cycle_signals e)
              (set_client_
                 (set_pollTimer (QTimer_start 5000 (clock e) QTimer_new)
                                (StarlinkClient_new target))
                 (createTrayIcon (createUi (MainWindow_members (StarlinkClient_new target))))) in
   updateStatus false
     {| client_ := client_ w; trayIcon_ := trayIcon_ w;
        statusLabel_ := statusLabel_ w; speedLabel_ := speedLabel_ w;
        locationLabel_ := locationLabel_ w; satelliteLabel_ := satelliteLabel_ w;
        connectedIcon_ := QIcon_file ":/icons/connected.png";
        disconnectedIcon_ := QIcon_file ":/icons/disconnected.png";
        windowTitle := windowTitle w; size := size w;
        isVisible := isVisible w; isActiveWindow := isActiveWindow w |},
   snd (fst (fetchStatus e)), cycle_outputs e).
Proof.
  unfold MainWindow_new. cbv zeta.
  change (client_ (createTrayIcon (createUi (MainWindow_members (StarlinkClient_new target)))))
    with (StarlinkClient_new target).
  rewrite startMonitoring_unfold. reflexivity.
Qed.

(** X12: the window always comes up saying Disconnected.  The constructor
  starts the poller, whose first cycle runs at once and fills the labels,
  and then sets the status to Disconnected itself: when it returns, the
  status label, the tool tip and the tray icon say Disconnected whatever
  the first cycle found, while the satellite, location and speed labels
  show the first cycle's data where there is some and [--] otherwise.  The
  window is hidden, the tray icon shown, and the poller Running with its
  timer due 5000 ms after the construction began. *)
Theorem window_starts_disconnected (target : QString) (e : Env Dev) :
  let w := fst (fst (MainWindow_new target e)) in
  statusLabel_ w = "Status: Disconnected"
  /\ QSystemTrayIcon.toolTip (trayIcon_ w) = "Starlink: Disconnected"
  /\ QSystemTrayIcon.icon (trayIcon_ w) = QIcon_file ":/icons/disconnected.png"
  /\ QSystemTrayIcon.isVisible (trayIcon_ w) = true
  /\ isVisible w = false
  /\ satelliteLabel_ w =
     (if status_ok e && carries_device_info e then
        let info := Device.device_info (Device.get_device_info (response (fst (status_call e)))) in
        arg (arg "ID: %1 | HW: %2" (fromStdString (Device.id info)))
            (fromStdString (Device.hardware_version info))
      else "Satellite: --")
  /\ locationLabel_ w =
     (if location_ok e && carries_position e then
        let p := Device.lla (Device.get_location (response (fst (location_call e)))) in
        arg_double
          (arg_double (arg_double "Lat: %1 | Lon: %2 | Alt: %3 m" (Device.lat p) 0 "f" 4)
                      (Device.lon p) 0 "f" 4)
          (Device.alt p) 0 "f" 1
      else "Location: --")
  /\ speedLabel_ w =
     (if history_ok e then
        arg_double
          (arg_double
             (arg_double "Down: %1 Mbps | Up: %2 Mbps | Ping: %3 ms" (float_literal 100) 0 "f" 1)
             (float_literal 20) 0 "f" 1)
          (float_literal 30) 0 "f" 0
      else "Speed: --")
  /\ pollTimer_ (client_ w) = {| isActive := true; interval := 5000; expiry := clock e + 5000 |}
  /\ snd (MainWindow_new target e) = cycle_outputs e.
Proof.
  cbv zeta. rewrite MainWindow_new_unfold. cbv zeta. cbn [fst snd].
  match goal with
  | |- context [deliver_all (cycle_signals e) ?w1] =>
      destruct (window_after_cycle e w1)
        as (_ & _ & _ & H4 & H5 & H6 & (Hv & _ & _ & _ & _ & _ & Hc) & Hvis)
  end.
  cbn [updateStatus set_statusLabel_ set_trayIcon_ statusLabel_ trayIcon_ speedLabel_
       locationLabel_ satelliteLabel_ isVisible client_ disconnectedIcon_
       QSystemTrayIcon.setIcon QSystemTrayIcon.setToolTip QSystemTrayIcon.toolTip
       QSystemTrayIcon.icon QSystemTrayIcon.isVisible].
  rewrite H4, H5, H6, Hv, Hc.
  apply (f_equal fst) in Hvis. cbn [fst] in Hvis. rewrite Hvis.
  repeat split.
Qed.

Lemma updateStatus_consistent (connected : bool) (w : MainWindow) :
  status_consistent (updateStatus connected w).
Proof. destruct connected; [left | right]; reflexivity. Qed.

Lemma handle_keeps_consistent (ev : UiEvent) (w : MainWindow) :
  status_consistent w -> status_consistent (handle ev w).
Proof.
  intros Hw. destruct ev as [reason | | | s]; cbn [handle].
  - destruct reason; cbn [onTrayIconActivated]; try exact Hw;
      destruct (isVisible w); exact Hw.
  - unfold close, closeEvent.
    destruct (QSystemTrayIcon.isVisible (trayIcon_ w)); cbn; exact Hw.
  - exact Hw.
  - destruct s; [apply updateStatus_consistent | exact Hw ..].
Qed.

(** X13: the three places that show the connection state never disagree.
  From the moment the constructor returns, whatever signals the poller
  sends and whatever the user does with the tray icon and the window, the
  status label, the tool tip and the tray icon say Connected together, with
  the connected icon, or Disconnected together, with the disconnected one. *)
Theorem status_displays_always_agree (target : QString) (e : Env Dev) (evs : list UiEvent) :
  status_consistent (handle_all evs (fst (fst (MainWindow_new target e)))).
Proof.
  apply handle_all_invariant.
  - apply handle_keeps_consistent.
  - rewrite MainWindow_new_unfold. cbv zeta. cbn [fst]. apply updateStatus_consistent.
Qed.

End Construction.

(** ** The window on concrete devices *)

(** A good cycle followed by one whose status call fails: the window says
  Disconnected and still shows the identity of the cycle before. *)
Example stale_identity :
  let w := deliver_all (cycle_signals status_down)
             (deliver_all (cycle_signals all_good) blank_window) in
  (statusLabel_ w, satelliteLabel_ w) =
  ("Status: Disconnected", "ID: %1 | HW: %2[SAT123][rev2]").
Proof. reflexivity. Qed.

(** The first cycle succeeds, and the constructed window says Disconnected. *)
Example constructed_on_all_good :
  let w := fst (fst (MainWindow_new default_target all_good)) in
  (statusLabel_ w, satelliteLabel_ w, QSystemTrayIcon.icon (trayIcon_ w)) =
  ("Status: Disconnected", "ID: %1 | HW: %2[SAT123][rev2]",
   QIcon_file ":/icons/disconnected.png").
Proof. reflexivity. Qed.

(** X5 (witness): a constructed poller, left unstarted for 11 s with a stop
  in between, has shown nothing and has not touched the device. *)
Lemma constructed_poller_is_silent_witness :
  forallb never_starts without_start = true
  /\ observed (run without_start (boot default_target all_good)) = []
  /\ device (env (run without_start (boot default_target all_good))) = device all_good.
Proof.
  split; [reflexivity |].
  destruct (constructed_poller_is_silent default_target all_good without_start)
    as (Ho & _ & Hd & _); [reflexivity | split; assumption].
Defined.

(** X6 (witness): started against a device that cannot be reached, the
  poller is still Running after 20 s of failed cycles. *)
Lemma polling_survives_failures_witness :
  forallb never_stops twenty_seconds = true
  /\ poller_state (poller (run twenty_seconds
                             (step CallStart (boot default_target unreachable)))) = Running.
Proof.
  split; [reflexivity |].
  apply (polling_survives_failures (boot default_target unreachable) twenty_seconds).
  reflexivity.
Defined.

(** X9 (witness): a cycle without a position leaves the location label of
  the blank window as it was. *)
Lemma labels_change_only_by_their_signal_witness :
  of_kind GeoPosition (cycle_signals only_status) = []
  /\ locationLabel_ (deliver_all (cycle_signals only_status) blank_window) = "Location: --".
Proof.
  split; [reflexivity |].
  exact (proj1 (proj2 (proj2
           (labels_change_only_by_their_signal (cycle_signals only_status) blank_window)))
           eq_refl).
Defined.

(** X11 (witness): after a good cycle, a cycle whose status call fails
  leaves the satellite label showing the identity of the good cycle. *)
Lemma failed_calls_keep_last_values_witness :
  status_ok status_down && carries_device_info status_down = false
  /\ satelliteLabel_ (deliver_all (cycle_signals status_down)
                        (deliver_all (cycle_signals all_good) blank_window)) =
     satelliteLabel_ (deliver_all (cycle_signals all_good) blank_window).
Proof.
  split; [reflexivity |].
  exact (proj1 (failed_calls_keep_last_values status_down
                  (deliver_all (cycle_signals all_good) blank_window)) eq_refl).
Defined.

(** * One cycle at a time *)

Lemma scan_sent (o : list Output) (t : N) :
  fold_left GuiThread.scan1 (map Sent o) (Some (true, t)) = Some (true, t).
Proof. induction o as [| x o IH]; [reflexivity | exact IH]. Qed.

(** A whole cycle appended to a trace at rest leaves the trace at rest. *)
Lemma scan_cycle (l : list Mark) (o : list Output) (t t0 t1 : N) :
  GuiThread.scan l = Some (false, t) -> t <= t0 -> t0 <= t1 ->
  GuiThread.scan (l ++ CycleBegan t0 :: map Sent o ++ [CycleEnded t1]) = Some (false, t1).
Proof.
  intros Hl H0 H1. unfold GuiThread.scan in *.
  rewrite fold_left_app, Hl. cbn [fold_left GuiThread.scan1 negb andb].
  apply N.leb_le in H0. rewrite H0.
  rewrite fold_left_app, scan_sent. cbn [fold_left GuiThread.scan1 andb].
  apply N.leb_le in H1. rewrite H1. reflexivity.
Qed.

Lemma sent_cycle (l : list Mark) (o : list Output) (t0 t1 : N) :
  GuiThread.sent (l ++ CycleBegan t0 :: map Sent o ++ [CycleEnded t1]) = GuiThread.sent l ++ o.
Proof.
  unfold GuiThread.sent. rewrite flat_map_app. f_equal. cbn [flat_map app].
  rewrite flat_map_app. cbn. rewrite app_nil_r.
  induction o as [| x o IH]; [reflexivity | cbn; f_equal; exact IH].
Qed.

Section OneCycleAtATime.
Context {Dev : Type} `{Stub Dev}.

(** [GuiThread.fetchStatus] is [fetchStatus]: whatever the event loop would
  do if it were entered, running the program leaves the cycle's outputs in
  the trace between one entry mark and one return mark, and the device and
  the clock as [fetchStatus] leaves them.  The program never hands control
  back to the event loop. *)
Lemma exec_fetchStatus (pump : GuiThread.Thread Dev -> GuiThread.Thread Dev)
    (s : GuiThread.Thread Dev) :
  GuiThread.exec pump GuiThread.fetchStatus s =
  (tt, {| GuiThread.owner := GuiThread.owner s;
          GuiThread.world := snd (fst (fetchStatus (GuiThread.world s)));
          GuiThread.marks :=
            GuiThread.marks s ++
            CycleBegan (clock (GuiThread.world s)) ::
            map Sent (cycle_outputs (GuiThread.world s)) ++
            [CycleEnded (clock (snd (fst (fetchStatus (GuiThread.world s)))))] |}).
Proof.
  destruct s as [this e l]. cbn [GuiThread.owner GuiThread.world GuiThread.marks].
  rewrite cycle_outputs_unfold, fetchStatus_unfold. cbn [fst snd].
  unfold history_call, location_call, status_call.
  unfold status_outputs, location_outputs, history_outputs.
  unfold GuiThread.fetchStatus, GuiThread.enter_cycle, GuiThread.leave_cycle,
    GuiThread.stub_Handle, GuiThread.emit, GuiThread.qWarning, GuiThread.ret.
  cbn [GuiThread.bind GuiThread.exec GuiThread.mark GuiThread.owner GuiThread.world
       GuiThread.marks device clock].
  destruct (Handle (device e) (clock e) _) as [r1 d1]; cbn [fst snd device clock].
  destruct (grpc.ok (status r1));
    [ destruct (Device.has_get_device_info (response r1)) | ];
    cbn [GuiThread.bind GuiThread.exec GuiThread.mark GuiThread.owner GuiThread.world
         GuiThread.marks device clock];
    ( destruct (Handle d1 _ _) as [r2 d2]; cbn [fst snd device clock andb];
      destruct (grpc.ok (status r2)), (Device.has_get_location (response r2));
      cbn [andb]; cbv zeta;
      try destruct (Device.has_lla (Device.get_location (response r2)));
      cbn [GuiThread.bind GuiThread.exec GuiThread.mark GuiThread.owner GuiThread.world
           GuiThread.marks device clock];
      destruct (Handle d2 _ _) as [r3 d3]; cbn [fst snd device clock];
      destruct (grpc.ok (status r3));
      cbn [GuiThread.bind GuiThread.exec];
      unfold GuiThread.mark;
      cbn [GuiThread.owner GuiThread.world GuiThread.marks device clock map];
      rewrite <- ?app_assoc; cbn [app]; reflexivity ).
Qed.

End OneCycleAtATime.

Section ThreadAndApplication.
Context {Dev : Type} `{Stub Dev}.

Lemma exec_startMonitoring (pump : GuiThread.Thread Dev -> GuiThread.Thread Dev)
    (s : GuiThread.Thread Dev) :
  GuiThread.exec pump GuiThread.startMonitoring s =
  (tt, {| GuiThread.owner :=
            set_pollTimer (QTimer_start 5000 (clock (GuiThread.world s))
                                        (pollTimer_ (GuiThread.owner s)))
                          (GuiThread.owner s);
          GuiThread.world := snd (fst (fetchStatus (GuiThread.world s)));
          GuiThread.marks :=
            GuiThread.marks s ++
            CycleBegan (clock (GuiThread.world s)) ::
            map Sent (cycle_outputs (GuiThread.world s)) ++
            [CycleEnded (clock (snd (fst (fetchStatus (GuiThread.world s)))))] |}).
Proof.
  unfold GuiThread.startMonitoring, GuiThread.pollTimer_start.
  cbn [GuiThread.bind GuiThread.exec]. rewrite exec_fetchStatus. reflexivity.
Qed.

Lemma cycle_keeps_rest_and_agreement (th : GuiThread.Thread Dev) (s : App Dev)
    (t : QTimer) (c : list Cycle) :
  GuiThread.at_rest th -> GuiThread.agrees th s ->
  let th' :=
    {| GuiThread.owner := set_pollTimer t (GuiThread.owner th);
       GuiThread.world := snd (fst (fetchStatus (GuiThread.world th)));
       GuiThread.marks :=
         GuiThread.marks th ++
         CycleBegan (clock (GuiThread.world th)) ::
         map Sent (cycle_outputs (GuiThread.world th)) ++
         [CycleEnded (clock (snd (fst (fetchStatus (GuiThread.world th)))))] |} in
  let s' :=
    {| poller := set_pollTimer t (poller s);
       env := snd (fst (fetchStatus (env s)));
       observed := observed s ++ cycle_outputs (env s);
       cycles := c |} in
  GuiThread.at_rest th' /\ GuiThread.agrees th' s'.
Proof.
  intros (t0 & Hscan & Ht0) (Ho & Hw & Hs). cbv zeta. split.
  - exists (clock (snd (fst (fetchStatus (GuiThread.world th))))).
    cbn [GuiThread.marks GuiThread.world]. split; [| lia].
    apply (scan_cycle _ _ t0); [exact Hscan | exact Ht0 | apply fetchStatus_clock].
  - unfold GuiThread.agrees.
    cbn [GuiThread.owner GuiThread.world GuiThread.marks poller env observed].
    rewrite sent_cycle, Ho, Hw, Hs. repeat split.
Qed.

(** Every action keeps the thread at rest and in agreement with [step]. *)
Lemma step_keeps_rest_and_agreement (depth : nat) (a : Action)
    (th : GuiThread.Thread Dev) (s : App Dev) :
  GuiThread.at_rest th -> GuiThread.agrees th s ->
  GuiThread.at_rest (GuiThread.step depth GuiThread.StarlinkClient_code a th)
  /\ GuiThread.agrees (GuiThread.step depth GuiThread.StarlinkClient_code a th) (step a s).
Proof.
  intros Hrest Hagree.
  destruct th as [this e l], s as [this' e' ob cy].
  pose proof Hagree as (Ho & Hw & Hs).
  cbn [GuiThread.owner GuiThread.world GuiThread.marks poller env observed] in Ho, Hw, Hs.
  subst this' e'.
  pose proof Hrest as (t0 & Hscan & Ht0).
  cbn [GuiThread.world GuiThread.marks] in Hscan, Ht0.
  destruct a as [d | | |];
    unfold GuiThread.step;
    cbn [GuiThread.on_timeout GuiThread.start GuiThread.stop GuiThread.StarlinkClient_code].
  - split.
    + exists t0. cbn [GuiThread.marks GuiThread.world clock]. split; [exact Hscan | lia].
    + unfold GuiThread.agrees, step.
      cbn [GuiThread.owner GuiThread.world GuiThread.marks poller env observed].
      repeat split. exact Hs.
  - unfold GuiThread.timeout. cbn [GuiThread.owner GuiThread.world].
    destruct (QTimer_due (clock e) (pollTimer_ this)) eqn:Hdue.
    + rewrite exec_fetchStatus, step_Tick_due by exact Hdue.
      cbn [snd GuiThread.set_timer GuiThread.owner GuiThread.world GuiThread.marks
           poller env observed cycles].
      exact (cycle_keeps_rest_and_agreement _ _ _ _ Hrest Hagree).
    + unfold step. cbn [poller env]. rewrite Hdue. split; assumption.
  - rewrite exec_startMonitoring, step_CallStart.
    cbn [snd GuiThread.owner GuiThread.world GuiThread.marks poller env observed cycles].
    exact (cycle_keeps_rest_and_agreement _ _ _ _ Hrest Hagree).
  - rewrite step_CallStop.
    unfold GuiThread.stopMonitoring, GuiThread.pollTimer_stop.
    cbn [GuiThread.exec snd GuiThread.set_timer]. split.
    + exists t0. split; assumption.
    + unfold GuiThread.agrees.
      cbn [GuiThread.owner GuiThread.world GuiThread.marks poller env observed].
      repeat split. exact Hs.
Qed.

End ThreadAndApplication.

Section Cycles_do_not_overlap.
Context {Dev : Type} `{Stub Dev}.

Lemma run_keeps_rest_and_agreement (depth : nat) (acts : list Action)
    (th : GuiThread.Thread Dev) (s : App Dev) :
  GuiThread.at_rest th -> GuiThread.agrees th s ->
  GuiThread.at_rest (GuiThread.run depth GuiThread.StarlinkClient_code acts th)
  /\ GuiThread.agrees (GuiThread.run depth GuiThread.StarlinkClient_code acts th) (run acts s).
Proof.
  revert th s. induction acts as [| a acts IH]; intros th s Hrest Hagree.
  - split; assumption.
  - destruct (step_keeps_rest_and_agreement depth a th s Hrest Hagree) as [Hrest' Hagree'].
    exact (IH _ _ Hrest' Hagree').
Qed.

(** C9: cycles never overlap.  The thread that owns the poller runs its
  code, [fetchStatus] on every delivery of the timer and [startMonitoring]
  and [stopMonitoring] on the owner's calls, in a trace that marks every
  entry into [fetchStatus] and every return from it.  Whatever the owner
  calls, however much time passes between, however long the device takes
  to answer (also longer than the timer's period, so that the timer is
  overdue when a cycle returns), whatever timer the poller begins with,
  and however deep event loops might nest: no [fetchStatus] is entered
  while another has not returned, everything emitted or logged lies between
  the entry and the return of one cycle, and the times of the marks never
  go back.  The thread sees the same poller, device, clock and outputs as
  the application of [step]. *)
Theorem no_cycle_begins_inside_another (depth : nat) (this : StarlinkClient) (e : Env Dev)
    (acts : list Action) :
  let th := GuiThread.run depth GuiThread.StarlinkClient_code acts
              {| GuiThread.owner := this; GuiThread.world := e; GuiThread.marks := [] |} in
  GuiThread.one_cycle_at_a_time (GuiThread.marks th) = true
  /\ GuiThread.agrees th (run acts {| poller := this; env := e; observed := []; cycles := [] |}).
Proof.
  cbv zeta.
  destruct (run_keeps_rest_and_agreement depth acts
              {| GuiThread.owner := this; GuiThread.world := e; GuiThread.marks := [] |}
              {| poller := this; env := e; observed := []; cycles := [] |})
    as [(t & Hscan & _) Hagree].
  - exists 0. split; [reflexivity | apply N.le_0_l].
  - repeat split.
  - split; [| exact Hagree].
    unfold GuiThread.one_cycle_at_a_time. rewrite Hscan. reflexivity.
Qed.

End Cycles_do_not_overlap.

(** On the sluggish device every cycle takes four periods of the timer;
  the trace of the poller's thread still shows one cycle at a time. *)
Example sluggish_trace :
  flat_map (fun m => match m with
                     | CycleBegan t => [(true, t)]
                     | CycleEnded t => [(false, t)]
                     | Sent _ => []
                     end)
    (GuiThread.marks (GuiThread.run 3 GuiThread.StarlinkClient_code
                        (CallStart :: twenty_seconds) (GuiThread.idle_thread sluggish))) =
  [(true, 0); (false, 21000); (true, 25000); (false, 46000);
   (true, 51000); (false, 72000); (true, 77000); (false, 98000)].
Proof. vm_compute. reflexivity. Qed.

(** A handler that lets the event loop run while it is at work does
  overlap on the same device: the timer, overdue after the first call,
  is delivered inside the handler, and a second cycle is entered at 7 s
  while the first has not returned. *)
Example pumping_overlaps :
  GuiThread.marks (GuiThread.run 1 GuiThread.pumping_code [CallStart]
                     (GuiThread.idle_thread sluggish)) =
  [CycleBegan 0; Sent (Emit (statusChanged true));
   CycleBegan 7000; Sent (Emit (statusChanged true));
   CycleEnded 14000; CycleEnded 14000]
  /\ GuiThread.one_cycle_at_a_time
       (GuiThread.marks (GuiThread.run 1 GuiThread.pumping_code [CallStart]
                           (GuiThread.idle_thread sluggish))) = false.
Proof. split; vm_compute; reflexivity. Qed.
